(** * Sawyer push-and-reach environment with a T-shaped puck

    A shallow embedding of [multiworld/envs/mujoco/sawyer_xyz/sawyer_push_T.py].

    Conventions of the embedding.
    - A numpy [float64] is a real number ([R]); a one-dimensional array is a
      [list R]; rows whose shape the simulator fixes (a body position, a
      quaternion, the mocap target) are tuples.
    - A Python dictionary with string keys is a [gmap string _].
    - A raised exception is [None] in the option monad.
    - The environment object is threaded explicitly: a method that mutates
      [self] returns the new environment.
    - [np.random]'s global generator is an explicit stream of draws. *)

From stdpp Require Import gmap strings list.
From Stdlib Require Import Reals Lra Lia.

Local Open Scope R_scope.

#[global] Instance Req_decision : EqDecision R := Req_dec_T.

(** ** numpy *)

Module np.

(** [np.clip(x, lo, hi)] on scalars: [minimum(maximum(x, lo), hi)]. *)
Definition clip (x lo hi : R) : R := Rmin (Rmax x lo) hi.

(** A binary ufunc on two one-dimensional arrays, with numpy's
    broadcasting: equal lengths combine elementwise, a one-element array
    is stretched, anything else raises [ValueError]. *)
Definition broadcast {A B C : Type} (f : A → B → C)
    (a : list A) (b : list B) : option (list C) :=
  if decide (length a = length b) then Some (zip_with f a b)
  else match a, b with
       | [x], _ => Some (map (f x) b)
       | _, [y] => Some (map (λ x, f x y) a)
       | _, _ => None
       end.

Definition subtract : list R → list R → option (list R) := broadcast Rminus.

(** [np.clip(a, lo, hi)] on arrays. *)
Definition clip_array (a lo hi : list R) : option (list R) :=
  m ← broadcast Rmax a lo; broadcast Rmin m hi.

Definition sum (v : list R) : R := foldr Rplus 0 v.

(** [np.linalg.norm(v)] of a one-dimensional array: [sqrt(dot(v, v))]. *)
Definition norm (v : list R) : R := sqrt (sum (map (λ x, x * x) v)).

(** [a[lo:hi]] for non-negative bounds. *)
Definition slice {A : Type} (a : list A) (lo hi : nat) : list A :=
  take (hi - lo) (drop lo a).

(** [a[lo:hi] = v]: the value must have the length of the slice or one
    element (which is then repeated); otherwise [ValueError]. *)
Definition setslice (a : list R) (lo hi : nat) (v : list R)
    : option (list R) :=
  let n := length (slice a lo hi) in
  if decide (length v = n) then Some (take lo a ++ v ++ drop (lo + n) a)
  else match v with
       | [x] => Some (take lo a ++ replicate n x ++ drop (lo + n) a)
       | _ => None
       end.

(** [(a == b).all()] for two arrays of equal length. *)
Definition all_equal (a b : list R) : bool :=
  forallb (λ p, bool_decide (fst p = snd p)) (zip a b).

(** The global generator of [np.random]: the stream of its future draws
    from the half-open unit interval. *)
Definition RandomState : Type := nat → R.

(** [np.random.random()]. *)
Definition random (g : RandomState) : R * RandomState :=
  (g 0%nat, λ i, g (S i)).

(** [np.random.uniform(low, high)] with array bounds: one draw [u] per
    element, mapped to [low + (high - low) * u]. *)
Definition uniform (low high : list R) (g : RandomState)
    : option (list R * RandomState) :=
  bounds ← broadcast pair low high;
  let n := length bounds in
  Some (zip_with (λ lh u, fst lh + (snd lh - fst lh) * u)
                 bounds (map g (seq 0 n)),
        λ i, g (n + i)%nat).

(** [np.arctan2(y, x)], values in (-pi, pi]. *)
Definition arctan2 (y x : R) : R :=
  if Rlt_dec 0 x then atan (y / x)
  else if Rlt_dec x 0 then
    if Rle_dec 0 y then atan (y / x) + PI else atan (y / x) - PI
  else if Rlt_dec 0 y then PI / 2
  else if Rlt_dec y 0 then - (PI / 2)
  else 0.

End np.

(** ** scipy.spatial.transform.Rotation *)

Module Rotation.

Inductive Axis := X | Y | Z.

(** A rotation is stored as a quaternion in scalar-last order
    [(x, y, z, w)]. *)
Definition t : Type := R * R * R * R.

(** Modelled from the spec: scipy is a dependency and not part of the
    sources; section 4.1 fixes what the conversion must produce (the unit
    rotation about one axis).  The elementary rotation by [angle] about
    [axis] is the quaternion with [sin (angle / 2)] on that axis and
    [cos (angle / 2)] as scalar part. *)
Definition make_elementary_quat (axis : Axis) (angle : R) : t :=
  let s := sin (angle / 2) in
  let c := cos (angle / 2) in
  match axis with
  | X => (s, 0, 0, c)
  | Y => (0, s, 0, c)
  | Z => (0, 0, s, c)
  end.

(** Hamilton product [p * q]: the rotation [q] followed by [p]. *)
Definition compose_quat (p q : t) : t :=
  let '(px, py, pz, pw) := p in
  let '(qx, qy, qz, qw) := q in
  (pw * qx + qw * px + (py * qz - pz * qy),
   pw * qy + qw * py + (pz * qx - px * qz),
   pw * qz + qw * pz + (px * qy - py * qx),
   pw * qw - (px * qx + py * qy + pz * qz)).

(** Modelled from the spec: [Rotation.from_euler(seq, angles)] for a
    lower-case [seq], that is extrinsic rotations about the fixed axes,
    applied in the order of [seq]. *)
Definition from_euler (seq : Axis * Axis * Axis) (angles : R * R * R) : t :=
  let '(s0, s1, s2) := seq in
  let '(a0, a1, a2) := angles in
  compose_quat (make_elementary_quat s2 a2)
    (compose_quat (make_elementary_quat s1 a1)
       (make_elementary_quat s0 a0)).

(** [r.as_quat()]. *)
Definition as_quat (r : t) : R * R * R * R := r.

(** Modelled from the spec: [Rotation.from_quat([x, y, z, w])] normalises
    its argument and rejects a quaternion of norm zero. *)
Definition from_quat (q : R * R * R * R) : option t :=
  let '(x, y, z, w) := q in
  let n := np.norm [x; y; z; w] in
  if decide (n = 0) then None
  else Some (x / n, y / n, z / n, w / n).

(** Modelled from the spec: [r.as_euler('zyx')], the angles about z, y
    and x of the extrinsic decomposition, read off the rotation matrix of
    the unit quaternion.  Orientations in gimbal lock (a quarter turn
    about y) are outside the domain the spec defines. *)
Definition as_euler_zyx (r : t) : R * R * R :=
  let '(x, y, z, w) := r in
  let m00 := x * x - y * y - z * z + w * w in
  let m01 := 2 * (x * y - z * w) in
  let m02 := 2 * (x * z + y * w) in
  let m12 := 2 * (y * z - x * w) in
  let m22 := - (x * x) - y * y + z * z + w * w in
  (np.arctan2 (- m01) m00, asin m02, np.arctan2 (- m12) m22).

End Rotation.

(** ** Orientation conversion *)

Definition theta_to_quat (theta : R) : R * R * R * R :=
  let r := Rotation.from_euler (Rotation.Z, Rotation.X, Rotation.Y)
                               (theta, 0, 0) in
  let '(x, y, z, w) := Rotation.as_quat r in
  (w, x, y, z).

Definition quat_to_theta (x y z w : R) : option R :=
  rotation ← Rotation.from_quat (x, y, z, w);
  let euler := Rotation.as_euler_zyx rotation in
  let theta := fst (fst euler) in
  Some theta.

(** ** The simulator interface *)

(** The indices of the named bodies of the scene: ['leftclaw'] (the
    end-effector), ['puck'], ['puck-goal'] and ['hand-goal']. *)
Inductive Body := endeff_id | puck_id | puck_goal_id | hand_goal_id.

(** [mujoco_py.const.EQ_*], the kinds of equality constraints. *)
Inductive EqType := EQ_CONNECT | EQ_WELD | EQ_JOINT | EQ_TENDON | EQ_DISTANCE.

#[global] Instance EqType_eq_dec : EqDecision EqType.
Proof. solve_decision. Defined.

Definition vec3 : Type := R * R * R.
Definition quat : Type := R * R * R * R.

(** The part of [sim.data] and [sim.model] the environment touches.  The
    scene has one mocap body, so [mocap_pos] and [mocap_quat] are their row
    0.  [body_xpos] and [body_xquat] are derived quantities: they are only
    refreshed by the engine. *)
Record MjData := mkData {
  qpos : list R;
  qvel : list R;
  mocap_pos : vec3;
  mocap_quat : quat;
  body_xpos : Body → vec3;
  body_xquat : Body → quat;
  eq_data : option (list (EqType * list R));
}.

Definition quat_nonzero (q : quat) : Prop :=
  let '(w, x, y, z) := q in np.norm [x; y; z; w] ≠ 0.

(** The physics engine is opaque.  [mj_forward] recomputes the derived
    quantities from the state; [mj_step] integrates one time step under a
    control vector and yields the new joint state and derived quantities.
    The mocap target and the constraint data are inputs the engine reads
    and never writes.  Body orientations it reports are rotations, hence
    never the zero quaternion. *)
Class Engine := {
  mj_forward : MjData → (Body → vec3) * (Body → quat);
  mj_step : list R → MjData →
            list R * list R * ((Body → vec3) * (Body → quat));
  mj_forward_xquat : ∀ d b, quat_nonzero ((mj_forward d).2 b);
  mj_step_xquat : ∀ u d b, quat_nonzero ((mj_step u d).2.2 b);
}.

Definition sim_forward `{Engine} (d : MjData) : MjData :=
  let '(xpos, xquat) := mj_forward d in
  mkData (qpos d) (qvel d) (mocap_pos d) (mocap_quat d) xpos xquat (eq_data d).

Definition sim_step `{Engine} (ctrl : list R) (d : MjData) : MjData :=
  let '(qp, qv, (xpos, xquat)) := mj_step ctrl d in
  mkData qp qv (mocap_pos d) (mocap_quat d) xpos xquat (eq_data d).

Definition set_mocap_pos (p : vec3) (d : MjData) : MjData :=
  mkData (qpos d) (qvel d) p (mocap_quat d)
         (body_xpos d) (body_xquat d) (eq_data d).

Definition set_mocap_quat (q : quat) (d : MjData) : MjData :=
  mkData (qpos d) (qvel d) (mocap_pos d) q
         (body_xpos d) (body_xquat d) (eq_data d).

Definition set_eq_data (eq : option (list (EqType * list R))) (d : MjData)
    : MjData :=
  mkData (qpos d) (qvel d) (mocap_pos d) (mocap_quat d)
         (body_xpos d) (body_xquat d) eq.

(** ** The environment *)

Inductive EnvClass := SawyerPushAndReachTXYEnv | SawyerPushAndReachTXYEasyEnv.

(** The constructor arguments the methods below read. *)
Record Config := mkConfig {
  cls : EnvClass;
  frame_skip : nat;
  pos_action_scale : R;
  randomize_goals : bool;
  puck_goal_low : list R;
  puck_goal_high : list R;
  hand_goal_low : list R;
  hand_goal_high : list R;
  fixed_puck_goal : list R;
  fixed_hand_goal : list R;
  mocap_low : vec3;
  mocap_high : vec3;
  force_puck_in_goal_space : bool;
}.

(** The defaults of [SawyerPushAndReachTXYEnv.__init__]. *)
Definition default_config (c : EnvClass) : Config := {|
  cls := c;
  frame_skip := 50;
  pos_action_scale := 2 / 100;
  randomize_goals := true;
  puck_goal_low := [-0.05; 0.55; -0.2];
  puck_goal_high := [0.05; 0.65; 0.2];
  hand_goal_low := [-0.05; 0.55];
  hand_goal_high := [0.05; 0.65];
  fixed_puck_goal := [0.05; 0.6; 0];
  fixed_hand_goal := [-0.05; 0.6; 0];
  mocap_low := (-0.1, 0.5, 0.0);
  mocap_high := (0.1, 0.7, 0.5);
  force_puck_in_goal_space := false;
|}.

(** The environment object: the simulator data and [self._goal_xyxytheta]. *)
Record Env := mkEnv {
  data : MjData;
  _goal_xyxytheta : list R;
}.

Definition INIT_HAND_POS : vec3 := (0, 0.4, 0.02).

Definition init_angles : list R :=
  [1.78026069e+00; - 6.84415781e-01; - 1.54549231e-01;
   2.30672090e+00; 1.93111471e+00; 1.27854012e-01;
   1.49353907e+00; 1.80196716e-03; 7.40415706e-01;
   2.09895360e-02; 1; 0;
   0; 0; - 3.62518873e-02;
   6.13435141e-01; 2.09686080e-02; 7.07106781e-01;
   1.48979724e-14; 7.07106781e-01; - 1.48999170e-14;
   0; 0.6; 0.02;
   1; 0; 1; 0].

(** The defaults of [SawyerPushAndReachTXYEasyEnv.__init__]: the puck goal
    bounds are replaced by two-element ones. *)
Definition easy_config : Config := {|
  cls := SawyerPushAndReachTXYEasyEnv;
  frame_skip := 50;
  pos_action_scale := 2 / 100;
  randomize_goals := true;
  puck_goal_low := [-0.2; 0.5];
  puck_goal_high := [0.2; 0.7];
  hand_goal_low := [-0.05; 0.55];
  hand_goal_high := [0.05; 0.65];
  fixed_puck_goal := [0.05; 0.6; 0];
  fixed_hand_goal := [-0.05; 0.6; 0];
  mocap_low := (-0.1, 0.5, 0.0);
  mocap_high := (0.1, 0.7, 0.5);
  force_puck_in_goal_space := false;
|}.

Definition vec3_list (v : vec3) : list R := let '(x, y, z) := v in [x; y; z].

Section Methods.
Context `{Engine}.

(** Modelled from the spec: [MujocoEnv.set_state] is not part of the
    sources; section 6 describes it as setting the joint-position and
    joint-velocity vectors wholesale and recomputing the derived
    quantities. *)
Definition set_state (qp qv : list R) (e : Env) : Env :=
  let d := data e in
  mkEnv (sim_forward (mkData qp qv (mocap_pos d) (mocap_quat d)
                             (body_xpos d) (body_xquat d) (eq_data d)))
        (_goal_xyxytheta e).

(** Modelled from the spec: [MujocoEnv.do_simulation] is not part of the
    sources; section 6 describes it as advancing the simulation by a
    number of integration steps under a joint-torque vector. *)
Definition do_simulation (ctrl : list R) (n_frames : nat) (e : Env) : Env :=
  mkEnv (Nat.iter n_frames (sim_step ctrl) (data e)) (_goal_xyxytheta e).

Definition get_puck_xytheta (e : Env) : option (list R) :=
  let '(xy0, xy1, _) := body_xpos (data e) puck_id in
  let '(w, x, y, z) := body_xquat (data e) puck_id in
  theta ← quat_to_theta x y z w;
  Some [xy0; xy1; theta].

Definition get_endeff_pos (e : Env) : list R :=
  vec3_list (body_xpos (data e) endeff_id).

Definition get_hand_goal_pos (e : Env) : list R :=
  vec3_list (body_xpos (data e) hand_goal_id).

Definition get_puck_goal_xytheta (e : Env) : option (list R) :=
  let '(x, y, _) := body_xpos (data e) puck_goal_id in
  let '(qw, qx, qy, qz) := body_xquat (data e) puck_goal_id in
  theta ← quat_to_theta qx qy qz qw;
  Some [x; y; theta].

Definition _get_obs (e : Env) : option (gmap string (list R)) :=
  let e_ := np.slice (get_endeff_pos e) 0 2 in
  p ← get_puck_xytheta e;
  let b := np.slice p 0 3 in
  let x := e_ ++ b in
  let g := _goal_xyxytheta e in
  Some (<["observation" := x]>
        (<["state_observation" := x]>
         (<["desired_goal" := g]>
          (<["state_desired_goal" := g]>
           (<["achieved_goal" := x]>
            (<["state_achieved_goal" := x]> ∅)))))).

Definition mocap_set_action (cfg : Config) (action : vec3) (e : Env) : Env :=
  let '(px, py, pz) := mocap_pos (data e) in
  let '(dx, dy, dz) := action in
  let '(lx, ly, lz) := mocap_low cfg in
  let '(hx, hy, hz) := mocap_high cfg in
  let new_mocap_pos :=
    (np.clip (px + dx) lx hx, np.clip (py + dy) ly hy,
     np.clip (pz + dz) lz hz) in
  mkEnv (set_mocap_quat (1, 0, 1, 0) (set_mocap_pos new_mocap_pos (data e)))
        (_goal_xyxytheta e).

Definition set_puck_xytheta (xytheta : list R) (e : Env) : option Env :=
  let qpos0 := qpos (data e) in
  let qvel0 := qvel (data e) in
  match xytheta with
  | [x; y; theta] =>
      let '(qw, qx, qy, qz) := theta_to_quat theta in
      qpos1 ← np.setslice qpos0 7 10 [x; y; 0.02];
      qpos2 ← np.setslice qpos1 10 14 [qw; qx; qy; qz];
      qvel1 ← np.setslice qvel0 7 10 [0; 0; 0];
      qvel2 ← np.setslice qvel1 10 14 [0; 0; 0; 0];
      Some (set_state qpos2 qvel2 e)
  | _ => None
  end.

Definition set_goal_xyxytheta (xyxytheta : list R) (e : Env) : option Env :=
  let e := mkEnv (data e) xyxytheta in
  let hand_goal := np.slice xyxytheta 0 2 in
  let puck_xy_goal := np.slice xyxytheta 2 4 in
  puck_theta_goal ← last xyxytheta;
  let '(qw, qx, qy, qz) := theta_to_quat puck_theta_goal in
  let qpos0 := qpos (data e) in
  let qvel0 := qvel (data e) in
  qpos1 ← np.setslice qpos0 14 17 (hand_goal ++ [0.02]);
  qvel1 ← np.setslice qvel0 14 17 [0; 0; 0];
  qpos2 ← np.setslice qpos1 21 24 (puck_xy_goal ++ [0.02]);
  qvel2 ← np.setslice qvel1 21 24 [0; 0; 0];
  qpos3 ← np.setslice qpos2 24 28 [qw; qx; qy; qz];
  Some (set_state qpos3 qvel2 e).

(** The scene has a mocap body, so the guard [nmocap > 0] holds. *)
Definition reset_mocap_welds (e : Env) : Env :=
  let d := data e in
  let d :=
    match eq_data d with
    | Some rows =>
        set_eq_data
          (Some (map (λ row, if decide (row.1 = EQ_WELD)
                             then (row.1, [0; 0; 0; 1; 0; 0; 0])
                             else row) rows)) d
    | None => d
    end in
  mkEnv (sim_forward d) (_goal_xyxytheta e).

Definition sample_goal_xyxytheta (cfg : Config) (g : np.RandomState)
    : option (list R * np.RandomState) :=
  if randomize_goals cfg then
    '(hand, g) ← np.uniform (hand_goal_low cfg) (hand_goal_high cfg) g;
    '(puck, g) ← np.uniform (puck_goal_low cfg) (puck_goal_high cfg) g;
    Some (hand ++ puck, g)
  else
    let hand := fixed_hand_goal cfg in
    let puck := fixed_puck_goal cfg in
    Some (hand ++ puck, g).

Definition sample_goal_for_rollout (cfg : Config) (g : np.RandomState)
    : option (list R * np.RandomState) :=
  sample_goal_xyxytheta cfg g.

(** Only the easy class defines the method; on the base class the call
    raises [AttributeError]. *)
Definition sample_puck_xytheta (cfg : Config) (g : np.RandomState)
    : option (list R * np.RandomState) :=
  match cls cfg with
  | SawyerPushAndReachTXYEnv => None
  | SawyerPushAndReachTXYEasyEnv =>
      let '(u, g) := np.random g in
      let theta := (u - 0.5) * PI in
      Some ([0; 0.6; theta], g)
  end.

Definition compute_reward {A : Type} (action : A)
    (obs : gmap string (list R)) : option R :=
  achieved ← obs !! "state_achieved_goal";
  desired ← obs !! "state_desired_goal";
  diff ← np.subtract achieved desired;
  let r := - np.norm diff in
  Some r.

(** The local [mocap_delta_z] of [step]: the vertical correction towards
    the height 0.06. *)
Definition mocap_delta_z (e : Env) : R := 0.06 - (mocap_pos (data e)).2.

(** The local [new_mocap_action] of [step]: the clipped action stacked with
    the vertical correction. *)
Definition new_mocap_action (a : R * R) (e : Env) : vec3 :=
  let '(a0, a1) := a in
  (a0, a1, mocap_delta_z e).

Definition vec3_scale (v : vec3) (s : R) : vec3 :=
  let '(x, y, z) := v in (x * s, y * s, z * s).

(** [step] returns the new environment and the tuple
    [(obs, reward, done, info)]; actions are points of the two-dimensional
    [action_space]. *)
Definition step (cfg : Config) (a : R * R) (e : Env)
    : option (Env * (gmap string (list R) * R * bool * gmap string R)) :=
  let a := (np.clip a.1 (-1) 1, np.clip a.2 (-1) 1) in
  let new_mocap_action := new_mocap_action a e in
  let e := mocap_set_action cfg
             (vec3_scale new_mocap_action (pos_action_scale cfg)) e in
  e ← (if force_puck_in_goal_space cfg then
         puck_pos ← get_puck_xytheta e;
         clipped ← np.clip_array puck_pos
                      (puck_goal_low cfg) (puck_goal_high cfg);
         if negb (np.all_equal clipped puck_pos)
         then set_puck_xytheta clipped e
         else Some e
       else Some e);
  let u := replicate 7 0 in
  let e := do_simulation u (frame_skip cfg) e in
  obs ← _get_obs e;
  reward ← compute_reward a obs;
  let done := false in
  d ← np.subtract (get_hand_goal_pos e) (get_endeff_pos e);
  let hand_distance := np.norm d in
  pg ← get_puck_goal_xytheta e;
  p ← get_puck_xytheta e;
  d ← np.subtract pg p;
  let puck_distance := np.norm d in
  pg ← get_puck_goal_xytheta e;
  p ← get_puck_xytheta e;
  d ← np.subtract (np.slice pg 0 2) (np.slice p 0 2);
  let puck_xy_distance := np.norm d in
  pg ← get_puck_goal_xytheta e;
  p ← get_puck_xytheta e;
  pg2 ← pg !! 2%nat;
  p2 ← p !! 2%nat;
  let puck_theta_distance := np.norm [pg2 - p2] in
  p ← get_puck_xytheta e;
  d ← np.subtract (get_endeff_pos e) p;
  let touch_distance := np.norm d in
  let info : gmap string R :=
    <["hand_distance" := hand_distance]>
    (<["puck_distance" := puck_distance]>
     (<["puck_xy_distance" := puck_xy_distance]>
      (<["puck_theta_distance" := puck_theta_distance]>
       (<["touch_distance" := touch_distance]>
        (<["success" :=
             if Rlt_dec (hand_distance + puck_distance) 0.06
             then 1 else 0]> ∅))))) in
  Some (e, (obs, reward, done, info)).

(** The first statements of [reset], up to and including the call of
    [set_state]. *)
Definition reset_set_state (e : Env) : Env :=
  let velocities := qvel (data e) in
  let angles := init_angles in
  set_state angles velocities e.

(** [reset] returns the new environment, the generator and the
    observation. *)
Definition reset (cfg : Config) (e : Env) (g : np.RandomState)
    : option (Env * np.RandomState * gmap string (list R)) :=
  let e := reset_set_state e in
  let e :=
    Nat.iter 10
      (λ e, mkEnv (set_mocap_quat (1, 0, 1, 0)
                     (set_mocap_pos INIT_HAND_POS (data e)))
                  (_goal_xyxytheta e)) e in
  '(goal, g) ← sample_goal_for_rollout cfg g;
  let e := mkEnv (data e) goal in
  e ← set_goal_xyxytheta (_goal_xyxytheta e) e;
  '(xytheta, g) ← sample_puck_xytheta cfg g;
  e ← set_puck_xytheta xytheta e;
  let e := reset_mocap_welds e in
  obs ← _get_obs e;
  Some (e, g, obs).

Definition set_hand_xy (cfg : Config) (xy : list R) (e : Env) : option Env :=
  Nat.iter 10
    (λ oe,
       e ← oe;
       xy0 ← xy !! 0%nat;
       xy1 ← xy !! 1%nat;
       let d := set_mocap_quat (1, 0, 1, 0)
                  (set_mocap_pos (xy0, xy1, 0.02) (data e)) in
       let u := replicate 7 0 in
       Some (do_simulation u (frame_skip cfg) (mkEnv d (_goal_xyxytheta e))))
    (Some e).


End Methods.

(** The corners of a box are ordered when the low one is below the high
    one on every axis. *)
Definition box_ordered (lo hi : vec3) : Prop :=
  lo.1.1 <= hi.1.1 ∧ lo.1.2 <= hi.1.2 ∧ lo.2 <= hi.2.

(** The closed box between two corners. *)
Definition in_box (lo hi p : vec3) : Prop :=
  lo.1.1 <= p.1.1 <= hi.1.1
  ∧ lo.1.2 <= p.1.2 <= hi.1.2
  ∧ lo.2 <= p.2 <= hi.2.

(** ** Further methods *)

(** [a[-n:]]: the last [n] entries, or all of them when there are fewer. *)
Definition slice_from_end {A : Type} (a : list A) (n : nat) : list A :=
  drop (length a - n) a.

(** [a - b] on two-dimensional arrays, given as lists of rows: the rows
    are paired with numpy's broadcasting and each pair is subtracted as
    one-dimensional arrays.  (A list of rows carries no row length when
    it is empty; the model is that of arrays with at least one row.) *)
Definition subtract_rows (a b : list (list R)) : option (list (list R)) :=
  rows ← np.broadcast np.subtract a b;
  mapM (M := option) (λ row : option (list R), row) rows.

Section MoreMethods.
Context `{Engine}.

Definition get_goal (e : Env) : gmap string (list R) :=
  <["desired_goal" := _goal_xyxytheta e]>
  (<["state_desired_goal" := _goal_xyxytheta e]> ∅).

Definition set_goal (goal : gmap string (list R)) (e : Env) : option Env :=
  state_goal ← goal !! "state_desired_goal";
  set_goal_xyxytheta state_goal e.

Definition set_to_goal (cfg : Config) (goal : gmap string (list R)) (e : Env)
    : option Env :=
  state_goal ← goal !! "state_desired_goal";
  e ← set_hand_xy cfg (np.slice state_goal 0 2) e;
  set_puck_xytheta (slice_from_end state_goal 3) e.

Definition reset_mocap2body_xpos (e : Env) : Env :=
  mkEnv (set_mocap_quat (body_xquat (data e) endeff_id)
           (set_mocap_pos (body_xpos (data e) endeff_id) (data e)))
        (_goal_xyxytheta e).

(** The checkpoint of [get_env_state]: the joint state of the simulator
    (its positions and velocities, the part of [sim.get_state()] the
    environment touches) and the mocap state. *)
Definition EnvState : Type := (list R * list R) * (vec3 * quat).

Definition get_env_state (e : Env) : EnvState :=
  let joint_state := (qpos (data e), qvel (data e)) in
  let mocap_state := (mocap_pos (data e), mocap_quat (data e)) in
  (joint_state, mocap_state).

(** Modelled from the spec: [sim.set_state] is not part of the sources;
    as in [set_state] above it installs the joint positions and velocities
    wholesale.  The derived quantities are recomputed by the final
    [sim.forward()]. *)
Definition set_env_state (state : EnvState) (e : Env) : Env :=
  let '(joint_state, mocap_state) := state in
  let '(qp, qv) := joint_state in
  let d := data e in
  let d := mkData qp qv (mocap_pos d) (mocap_quat d)
                  (body_xpos d) (body_xquat d) (eq_data d) in
  let '(mocap_pos', mocap_quat') := mocap_state in
  let d := set_mocap_pos mocap_pos' d in
  let d := set_mocap_quat mocap_quat' d in
  mkEnv (sim_forward d) (_goal_xyxytheta e).

(** The batched reward: [obs] maps each key to a two-dimensional array
    with one row per transition, and the norm is taken along axis 1. *)
Definition compute_rewards {A : Type} (action : A)
    (obs : gmap string (list (list R))) : option (list R) :=
  achieved ← obs !! "state_achieved_goal";
  desired ← obs !! "state_desired_goal";
  diff ← subtract_rows achieved desired;
  let r := map (λ row, - np.norm row) diff in
  Some r.

Definition convert_obs_to_goals {A : Type} (obs : A) : A := obs.

End MoreMethods.

(** The configuration with the constructor argument
    [force_puck_in_goal_space] set to [b] and every other argument kept. *)
Definition with_force_puck_in_goal_space (b : bool) (cfg : Config) : Config :=
  mkConfig (cls cfg) (frame_skip cfg) (pos_action_scale cfg)
           (randomize_goals cfg) (puck_goal_low cfg) (puck_goal_high cfg)
           (hand_goal_low cfg) (hand_goal_high cfg) (fixed_puck_goal cfg)
           (fixed_hand_goal cfg) (mocap_low cfg) (mocap_high cfg) b.

(** An engine keeps the sizes of the joint vectors when a time step
    returns as many positions and velocities as it was given. *)
Definition engine_keeps_sizes `{Engine} : Prop :=
  ∀ u d,
    length (mj_step u d).1.1 = length (qpos d)
    ∧ length (mj_step u d).1.2 = length (qvel d).

(** ** A concrete scene

    An engine on which the methods can be run: the bodies rest at given
    positions with the identity orientation, and the joints do not move. *)

Definition rigid_engine (xpos : Body → vec3) : Engine := {|
  mj_forward d := (xpos, λ _, (1, 0, 0, 0));
  mj_step u d := (qpos d, qvel d, (xpos, λ _, (1, 0, 0, 0)));
  mj_forward_xquat d b :=
    ltac:(unfold quat_nonzero, np.norm; simpl; intros Hn;
          apply sqrt_eq_0 in Hn; lra);
  mj_step_xquat u d b :=
    ltac:(unfold quat_nonzero, np.norm; simpl; intros Hn;
          apply sqrt_eq_0 in Hn; lra);
|}.

(** Simulator data at rest: the canonical joint angles, joint velocities
    [qv], the mocap target at [target], bodies at [xpos]. *)
Definition rest_data (qv : list R) (target : vec3) (xpos : Body → vec3)
    : MjData := {|
  qpos := init_angles;
  qvel := qv;
  mocap_pos := target;
  mocap_quat := (1, 0, 1, 0);
  body_xpos := xpos;
  body_xquat := λ _, (1, 0, 0, 0);
  eq_data := Some [(EQ_WELD, [0; 0; 0; 1; 0; 0; 0])];
|}.

(** Every body at the origin, except the hand-goal marker at distance [d]
    along the first axis. *)
Definition hand_goal_at (d : R) (b : Body) : vec3 :=
  match b with
  | hand_goal_id => (d, 0, 0)
  | _ => (0, 0, 0)
  end.

(** Every body at the origin, except the end-effector at height [h]. *)
Definition endeff_at (h : R) (b : Body) : vec3 :=
  match b with
  | endeff_id => (0, 0, h)
  | _ => (0, 0, 0)
  end.

(** The environment of such a scene, with a five-entry goal. *)
Definition scene_env (xpos : Body → vec3) : Env :=
  mkEnv (rest_data (replicate 25 0) (0, 0.6, 0.06) xpos) [0; 0; 0; 0; 0].

(** The same scene with every joint moving at unit velocity. *)
Definition moving_env : Env :=
  mkEnv (rest_data (replicate 25 1) (0, 0.6, 0.06) (hand_goal_at 0))
        [0; 0; 0; 0; 0].


(** The easy class without goal randomization, with the fixed goals
    (-0.05, 0.6) for the hand and (0.05, 0.6, 0) for the puck. *)
Definition fixed_goal_config : Config := {|
  cls := SawyerPushAndReachTXYEasyEnv;
  frame_skip := 50;
  pos_action_scale := 2 / 100;
  randomize_goals := false;
  puck_goal_low := [-0.05; 0.55; -0.2];
  puck_goal_high := [0.05; 0.65; 0.2];
  hand_goal_low := [-0.05; 0.55];
  hand_goal_high := [0.05; 0.65];
  fixed_puck_goal := [0.05; 0.6; 0];
  fixed_hand_goal := [-0.05; 0.6];
  mocap_low := (-0.1, 0.5, 0.0);
  mocap_high := (0.1, 0.7, 0.5);
  force_puck_in_goal_space := false;
|}.


(** Every body at the origin, except the puck at [(x, y, 0.02)]. *)
Definition puck_at (x y : R) (b : Body) : vec3 :=
  match b with
  | puck_id => (x, y, 0.02)
  | _ => (0, 0, 0)
  end.

(** A generator whose draws are all [u]. *)
Definition constant_draws (u : R) : np.RandomState := λ _, u.

(** * Properties *)

(** ** Arrays *)

Lemma clip_le_high x lo hi : np.clip x lo hi <= hi.
Proof. unfold np.clip. apply Rmin_r. Qed.

Lemma clip_ge_low x lo hi : lo <= hi → lo <= np.clip x lo hi.
Proof.
  intros Hlh. unfold np.clip. apply Rmin_glb; [apply Rmax_r | exact Hlh].
Qed.

Lemma clip_inside x lo hi : lo <= x <= hi → np.clip x lo hi = x.
Proof.
  intros [Hl Hh]. unfold np.clip.
  rewrite (Rmax_left x lo Hl). apply Rmin_left, Hh.
Qed.

Lemma broadcast_same_length {A B C : Type} (f : A → B → C) a b :
  length a = length b → np.broadcast f a b = Some (zip_with f a b).
Proof. intros Hlen. unfold np.broadcast. by rewrite decide_True. Qed.

Lemma sum_squares_nonneg v : 0 <= np.sum (map (λ x, x * x) v).
Proof.
  induction v as [|x v IH]; simpl; [lra|].
  pose proof (Rle_0_sqr x) as Hx. unfold Rsqr in Hx. lra.
Qed.

Lemma sum_squares_zero v :
  np.sum (map (λ x, x * x) v) = 0 ↔ Forall (λ x, x = 0) v.
Proof.
  induction v as [|x v IH]; simpl.
  - split; [constructor | reflexivity].
  - pose proof (sum_squares_nonneg v) as Hv.
    pose proof (Rle_0_sqr x) as Hx. unfold Rsqr in Hx.
    split.
    + intros Hs. constructor.
      * assert (Hxx : x * x = 0) by lra.
        apply Rmult_integral in Hxx. tauto.
      * apply IH. lra.
    + intros Hall. inversion Hall as [|? ? Hx0 Hv0]; subst.
      apply IH in Hv0. rewrite Hv0. lra.
Qed.

Lemma norm_nonneg v : 0 <= np.norm v.
Proof. apply sqrt_pos. Qed.

Lemma norm_zero v : np.norm v = 0 ↔ Forall (λ x, x = 0) v.
Proof.
  unfold np.norm. rewrite <- sum_squares_zero. split.
  - apply sqrt_eq_0, sum_squares_nonneg.
  - intros ->. apply sqrt_0.
Qed.


(** ** Reward *)


(** ** Step diagnostics *)

Ltac case_bind :=
  match goal with
  | H : (?m ≫= _) = Some _ |- _ =>
      let E := fresh "E" in
      destruct m eqn:E; simpl in H; [|discriminate H]
  end.

Lemma subtract_same_length a b :
  length a = length b → np.subtract a b = Some (zip_with Rminus a b).
Proof. apply broadcast_same_length. Qed.

Lemma quat_to_theta_is_Some w x y z :
  quat_nonzero (w, x, y, z) → is_Some (quat_to_theta x y z w).
Proof.
  unfold quat_nonzero, quat_to_theta, Rotation.from_quat. intros Hn.
  rewrite decide_False by exact Hn. simpl. eauto.
Qed.

Section StepDiagnostics.
Context `{Engine}.

Lemma get_puck_xytheta_shape e p :
  get_puck_xytheta e = Some p →
  ∃ theta, p = [(body_xpos (data e) puck_id).1.1;
                (body_xpos (data e) puck_id).1.2; theta].
Proof.
  unfold get_puck_xytheta.
  destruct (body_xpos (data e) puck_id) as [[x y] z].
  destruct (body_xquat (data e) puck_id) as [[[qw qx] qy] qz].
  intros Hp. simplify_option_eq. eauto.
Qed.

Lemma get_puck_goal_xytheta_shape e p :
  get_puck_goal_xytheta e = Some p →
  ∃ theta, p = [(body_xpos (data e) puck_goal_id).1.1;
                (body_xpos (data e) puck_goal_id).1.2; theta].
Proof.
  unfold get_puck_goal_xytheta.
  destruct (body_xpos (data e) puck_goal_id) as [[x y] z].
  destruct (body_xquat (data e) puck_goal_id) as [[[qw qx] qy] qz].
  intros Hp. simplify_option_eq. eauto.
Qed.

Lemma get_pos_shape (v : vec3) : vec3_list v = [v.1.1; v.1.2; v.2].
Proof. by destruct v as [[x y] z]. Qed.

(** What a returning [step] has computed: the diagnostics are read off the
    environment it returns. *)
Lemma step_info cfg a e e' obs reward done info :
  step cfg a e = Some (e', (obs, reward, done, info)) →
  ∃ pg p,
    get_puck_goal_xytheta e' = Some pg
    ∧ get_puck_xytheta e' = Some p
    ∧ length pg = 3%nat ∧ length p = 3%nat
    ∧ done = false
    ∧ info !! "hand_distance"
      = Some (np.norm (zip_with Rminus (get_hand_goal_pos e')
                                       (get_endeff_pos e')))
    ∧ info !! "puck_distance" = Some (np.norm (zip_with Rminus pg p))
    ∧ info !! "touch_distance"
      = Some (np.norm (zip_with Rminus (get_endeff_pos e') p))
    ∧ info !! "success"
      = Some (if Rlt_dec
                   (np.norm (zip_with Rminus (get_hand_goal_pos e')
                                             (get_endeff_pos e'))
                    + np.norm (zip_with Rminus pg p)) 0.06
              then 1 else 0).
Proof.
  unfold step. intros Hs.
  case_bind.
  match type of Hs with
  | context [do_simulation ?u ?n ?x] =>
      generalize dependent (do_simulation u n x); intros e3 Hs
  end.
  do 2 case_bind.
  unfold get_hand_goal_pos, get_endeff_pos in Hs.
  rewrite !get_pos_shape in Hs.
  rewrite subtract_same_length in Hs by done.
  simpl in Hs.
  destruct (get_puck_goal_xytheta e3) as [pg|] eqn:Hpg; [|discriminate Hs].
  destruct (get_puck_xytheta e3) as [p|] eqn:Hp; [|discriminate Hs].
  destruct (get_puck_goal_xytheta_shape _ _ Hpg) as [tg ->].
  destruct (get_puck_xytheta_shape _ _ Hp) as [tp ->].
  simpl in Hs. injection Hs as He Ho Hr Hd Hi. subst e' obs reward done info.
  eexists _, _. split; [exact Hpg|]. split; [exact Hp|].
  unfold get_hand_goal_pos, get_endeff_pos. rewrite !get_pos_shape.
  repeat split; reflexivity.
Qed.

Lemma sim_step_xquat u d b : quat_nonzero (body_xquat (sim_step u d) b).
Proof.
  pose proof (mj_step_xquat u d b) as Hq. unfold sim_step.
  destruct (mj_step u d) as [[qp qv] [xp xq]]. exact Hq.
Qed.

Lemma sim_forward_xquat d b : quat_nonzero (body_xquat (sim_forward d) b).
Proof.
  pose proof (mj_forward_xquat d b) as Hq. unfold sim_forward.
  destruct (mj_forward d) as [xp xq]. exact Hq.
Qed.

Lemma do_simulation_xquat u n e :
  (∀ b, quat_nonzero (body_xquat (data e) b)) →
  ∀ b, quat_nonzero (body_xquat (data (do_simulation u n e)) b).
Proof.
  intros He b. unfold do_simulation. simpl.
  destruct n as [|n]; simpl; [apply He | apply sim_step_xquat].
Qed.

Lemma get_puck_xytheta_is_Some e :
  quat_nonzero (body_xquat (data e) puck_id) → is_Some (get_puck_xytheta e).
Proof.
  unfold get_puck_xytheta. intros Hq.
  destruct (body_xpos (data e) puck_id) as [[x y] z].
  destruct (body_xquat (data e) puck_id) as [[[qw qx] qy] qz].
  destruct (quat_to_theta_is_Some _ _ _ _ Hq) as [t ->]. simpl. eauto.
Qed.

Lemma get_puck_goal_xytheta_is_Some e :
  quat_nonzero (body_xquat (data e) puck_goal_id) →
  is_Some (get_puck_goal_xytheta e).
Proof.
  unfold get_puck_goal_xytheta. intros Hq.
  destruct (body_xpos (data e) puck_goal_id) as [[x y] z].
  destruct (body_xquat (data e) puck_goal_id) as [[[qw qx] qy] qz].
  destruct (quat_to_theta_is_Some _ _ _ _ Hq) as [t ->]. simpl. eauto.
Qed.

(** The observation of an environment whose puck orientation is a
    rotation: five achieved scalars and the stored goal. *)
Lemma get_obs_is_Some e :
  quat_nonzero (body_xquat (data e) puck_id) →
  ∃ obs x,
    _get_obs e = Some obs ∧ length x = 5%nat
    ∧ obs !! "state_achieved_goal" = Some x
    ∧ obs !! "desired_goal" = Some (_goal_xyxytheta e)
    ∧ obs !! "state_desired_goal" = Some (_goal_xyxytheta e).
Proof.
  intros Hq. destruct (get_puck_xytheta_is_Some e Hq) as [p Hp].
  destruct (get_puck_xytheta_shape _ _ Hp) as [t ->].
  unfold _get_obs. rewrite Hp. simpl.
  unfold get_endeff_pos. rewrite get_pos_shape.
  eexists _, _. split; [reflexivity|].
  repeat split; reflexivity.
Qed.

(** [step] returns when the puck is not forced into the goal box, the
    stored goal has the five entries of an observation and the body
    orientations are rotations. *)
Lemma step_returns cfg a e :
  force_puck_in_goal_space cfg = false →
  length (_goal_xyxytheta e) = 5%nat →
  (∀ b, quat_nonzero (body_xquat (data e) b)) →
  is_Some (step cfg a e).
Proof.
  intros Hforce Hgoal Hq. unfold step. rewrite Hforce. simpl.
  match goal with
  | |- context [do_simulation ?u ?n ?x] =>
      assert (Hq3 : ∀ b, quat_nonzero
                (body_xquat (data (do_simulation u n x)) b));
      [ apply do_simulation_xquat; intros b; unfold mocap_set_action;
        destruct (mocap_pos (data e)) as [[? ?] ?];
        destruct (mocap_low cfg) as [[? ?] ?];
        destruct (mocap_high cfg) as [[? ?] ?]; simpl; apply Hq
      | assert (Hg3 : _goal_xyxytheta (do_simulation u n x)
                      = _goal_xyxytheta e);
        [ unfold mocap_set_action;
          destruct (mocap_pos (data e)) as [[? ?] ?];
          destruct (mocap_low cfg) as [[? ?] ?];
          destruct (mocap_high cfg) as [[? ?] ?]; reflexivity
        | generalize dependent (do_simulation u n x); intros e3 Hq3 Hg3 ] ]
  end.
  destruct (get_obs_is_Some e3 (Hq3 puck_id))
    as (obs & x & -> & Hx & Hach & _ & Hdes).
  simpl. unfold compute_reward. rewrite Hach, Hdes. simpl.
  rewrite (subtract_same_length x) by (rewrite Hg3; congruence). simpl.
  unfold get_hand_goal_pos, get_endeff_pos. rewrite !get_pos_shape.
  destruct (get_puck_goal_xytheta_is_Some e3 (Hq3 puck_goal_id)) as [pg Hpg].
  destruct (get_puck_xytheta_is_Some e3 (Hq3 puck_id)) as [p Hp].
  destruct (get_puck_goal_xytheta_shape _ _ Hpg) as [tg Epg].
  destruct (get_puck_xytheta_shape _ _ Hp) as [tp Ep].
  rewrite Hpg, Hp, Epg, Ep. simpl. eauto.
Qed.

(** Without the goal-box constraint, the environment [step] returns is the
    one the simulation leaves behind after the mocap update. *)
Lemma step_env cfg a e e' res :
  force_puck_in_goal_space cfg = false →
  step cfg a e = Some (e', res) →
  e' = do_simulation (replicate 7 0) (frame_skip cfg)
         (mocap_set_action cfg
            (vec3_scale
               (new_mocap_action (np.clip a.1 (-1) 1, np.clip a.2 (-1) 1) e)
               (pos_action_scale cfg)) e).
Proof.
  intros Hforce. unfold step. rewrite Hforce. simpl. intros Hs.
  repeat case_bind. by injection Hs as <- _.
Qed.

(** C2. In the diagnostics returned by [step], [success] is 1 exactly when
    the hand distance (hand-goal marker to end-effector) plus the puck
    distance (puck-goal pose to puck pose, angle included) is below 0.06,
    and 0 otherwise; so it is 1 for a sum of 0.059 and 0 for 0.061.  The
    distances are those of the environment the call leaves behind. *)
Theorem step_success_flag (cfg : Config) (a : R * R) (e : Env) :
  (∀ e' obs reward done info,
     step cfg a e = Some (e', (obs, reward, done, info)) →
     ∃ pg p hand_distance puck_distance,
       get_puck_goal_xytheta e' = Some pg
       ∧ get_puck_xytheta e' = Some p
       ∧ hand_distance
         = np.norm (zip_with Rminus (get_hand_goal_pos e') (get_endeff_pos e'))
       ∧ puck_distance = np.norm (zip_with Rminus pg p)
       ∧ info !! "hand_distance" = Some hand_distance
       ∧ info !! "puck_distance" = Some puck_distance
       ∧ (info !! "success" = Some 1 ↔ hand_distance + puck_distance < 0.06)
       ∧ (info !! "success" = Some 0
          ↔ ¬ hand_distance + puck_distance < 0.06)
       ∧ (hand_distance + puck_distance = 0.059 → info !! "success" = Some 1)
       ∧ (hand_distance + puck_distance = 0.061 → info !! "success" = Some 0))
  ∧ (force_puck_in_goal_space cfg = false →
     length (_goal_xyxytheta e) = 5%nat →
     (∀ b, quat_nonzero (body_xquat (data e) b)) →
     is_Some (step cfg a e)).
Proof.
  split; [|apply step_returns].
  intros e' obs reward done info Hs.
  destruct (step_info _ _ _ _ _ _ _ _ Hs)
    as (pg & p & Hpg & Hp & _ & _ & _ & Hhd & Hpd & _ & Hsucc).
  exists pg, p. eexists _, _.
  split; [exact Hpg|]. split; [exact Hp|].
  split; [reflexivity|]. split; [reflexivity|].
  split; [exact Hhd|]. split; [exact Hpd|].
  rewrite Hsucc.
  destruct (Rlt_dec _ _) as [Hlt|Hge].
  - repeat split; try tauto; try (intros; lra).
    intros [= Hone]. lra.
  - repeat split; try tauto; try (intros; lra).
    intros [= Hone]. lra.
Qed.

End StepDiagnostics.

(** The concrete scene: after any positive number of frames the rigid
    engine reports its bodies where they rest. *)
Lemma rigid_do_simulation xpos u n e :
  body_xpos (data (do_simulation (H := rigid_engine xpos) u (S n) e)) = xpos
  ∧ body_xquat (data (do_simulation (H := rigid_engine xpos) u (S n) e))
    = (λ _, (1, 0, 0, 0)).
Proof. split; reflexivity. Qed.

Lemma norm_along_axis d : 0 <= d → np.norm [d - 0; 0 - 0; 0 - 0] = d.
Proof.
  intros Hd. unfold np.norm. simpl. apply sqrt_lem_1; [nra | exact Hd | lra].
Qed.

Lemma norm_self_difference v : np.norm (zip_with Rminus v v) = 0.
Proof.
  apply norm_zero. induction v as [|x v IH]; simpl; constructor;
    [lra | exact IH].
Qed.

Lemma scene_quat_nonzero xpos b :
  quat_nonzero (body_xquat (data (scene_env xpos)) b).
Proof.
  unfold quat_nonzero, np.norm. simpl. intros Hn.
  apply sqrt_eq_0 in Hn; lra.
Qed.

(** In the concrete scene the two distances of the diagnostics add up to
    the offset of the hand-goal marker. *)
Lemma scene_distances d cfg a e' res pg p :
  0 <= d →
  force_puck_in_goal_space cfg = false →
  frame_skip cfg = 50%nat →
  step (H := rigid_engine (hand_goal_at d)) cfg a
       (scene_env (hand_goal_at d)) = Some (e', res) →
  get_puck_goal_xytheta e' = Some pg →
  get_puck_xytheta e' = Some p →
  np.norm (zip_with Rminus (get_hand_goal_pos e') (get_endeff_pos e'))
  + np.norm (zip_with Rminus pg p) = d.
Proof.
  intros Hd Hforce Hskip Hs Hpg Hp.
  apply (step_env (H := rigid_engine (hand_goal_at d)))
    in Hs; [|exact Hforce].
  rewrite Hskip in Hs.
  match type of Hs with
  | _ = do_simulation ?u _ ?x =>
      destruct (rigid_do_simulation (hand_goal_at d) u 49 x) as [Hxp Hxq];
      rewrite <- Hs in Hxp, Hxq
  end.
  unfold get_puck_goal_xytheta in Hpg. unfold get_puck_xytheta in Hp.
  unfold get_hand_goal_pos, get_endeff_pos.
  rewrite Hxp, Hxq in *. simpl in *.
  rewrite Hpg in Hp. injection Hp as <-.
  rewrite norm_self_difference, (norm_along_axis d Hd). lra.
Qed.

Lemma step_success_flag_witness :
  (∃ e' obs reward done info,
     step (H := rigid_engine (hand_goal_at 0.059))
          (default_config SawyerPushAndReachTXYEasyEnv) (0, 0)
          (scene_env (hand_goal_at 0.059))
     = Some (e', (obs, reward, done, info))
     ∧ info !! "success" = Some 1)
  ∧ (∃ e' obs reward done info,
     step (H := rigid_engine (hand_goal_at 0.061))
          (default_config SawyerPushAndReachTXYEasyEnv) (0, 0)
          (scene_env (hand_goal_at 0.061))
     = Some (e', (obs, reward, done, info))
     ∧ info !! "success" = Some 0).
Proof.
  split.
  - destruct (step_success_flag (H := rigid_engine (hand_goal_at 0.059))
                (default_config SawyerPushAndReachTXYEasyEnv) (0, 0)
                (scene_env (hand_goal_at 0.059))) as [Hinfo Hret].
    destruct Hret as [[e' [[[obs reward] done] info]] Hs];
      [reflexivity | reflexivity | apply scene_quat_nonzero |].
    destruct (Hinfo _ _ _ _ _ Hs)
      as (pg & p & hd & pd & Hpg & Hp & -> & -> & _ & _ & _ & _ & H59 & _).
    exists e', obs, reward, done, info. split; [exact Hs|].
    apply H59.
    apply (scene_distances 0.059
             (default_config SawyerPushAndReachTXYEasyEnv) _ _ _ _ _
             ltac:(lra) eq_refl eq_refl Hs Hpg Hp).
  - destruct (step_success_flag (H := rigid_engine (hand_goal_at 0.061))
                (default_config SawyerPushAndReachTXYEasyEnv) (0, 0)
                (scene_env (hand_goal_at 0.061))) as [Hinfo Hret].
    destruct Hret as [[e' [[[obs reward] done] info]] Hs];
      [reflexivity | reflexivity | apply scene_quat_nonzero |].
    destruct (Hinfo _ _ _ _ _ Hs)
      as (pg & p & hd & pd & Hpg & Hp & -> & -> & _ & _ & _ & _ & _ & H61).
    exists e', obs, reward, done, info. split; [exact Hs|].
    apply H61.
    apply (scene_distances 0.061
             (default_config SawyerPushAndReachTXYEasyEnv) _ _ _ _ _
             ltac:(lra) eq_refl eq_refl Hs Hpg Hp).
Defined.

(** C10. The [touch_distance] diagnostic of [step] is the norm of the
    end-effector position minus the puck pose [(x, y, theta)]: its third
    component is the end-effector height minus the puck angle, so it is not
    the planar distance between end-effector and puck. *)
Theorem step_touch_distance `{Engine} (cfg : Config) (a : R * R) (e : Env) :
  (∀ e' obs reward done info,
     step cfg a e = Some (e', (obs, reward, done, info)) →
     ∃ endeff_x endeff_y endeff_z puck_x puck_y puck_z puck_theta,
       body_xpos (data e') endeff_id = (endeff_x, endeff_y, endeff_z)
       ∧ body_xpos (data e') puck_id = (puck_x, puck_y, puck_z)
       ∧ (let '(w, x, y, z) := body_xquat (data e') puck_id in
          quat_to_theta x y z w) = Some puck_theta
       ∧ get_puck_xytheta e' = Some [puck_x; puck_y; puck_theta]
       ∧ info !! "touch_distance"
         = Some (np.norm [endeff_x - puck_x; endeff_y - puck_y;
                          endeff_z - puck_theta]))
  ∧ (force_puck_in_goal_space cfg = false →
     length (_goal_xyxytheta e) = 5%nat →
     (∀ b, quat_nonzero (body_xquat (data e) b)) →
     is_Some (step cfg a e)).
Proof.
  split; [|apply step_returns].
  intros e' obs reward done info Hs.
  destruct (step_info _ _ _ _ _ _ _ _ Hs)
    as (pg & p & _ & Hp & _ & _ & _ & _ & _ & Htouch & _).
  rewrite Htouch. clear Htouch Hs.
  unfold get_endeff_pos. unfold get_puck_xytheta in *.
  destruct (body_xpos (data e') endeff_id) as [[ex ey] ez].
  destruct (body_xpos (data e') puck_id) as [[px py] pz].
  destruct (body_xquat (data e') puck_id) as [[[qw qx] qy] qz].
  destruct (quat_to_theta qx qy qz qw) as [theta|]; [|discriminate Hp].
  simpl in Hp. injection Hp as <-.
  exists ex, ey, ez, px, py, pz, theta. repeat split; reflexivity.
Qed.

Lemma quat_to_theta_identity : quat_to_theta 0 0 0 1 = Some 0.
Proof.
  unfold quat_to_theta, Rotation.from_quat.
  assert (Hn : np.norm [0; 0; 0; 1] = 1).
  { unfold np.norm. simpl. apply sqrt_lem_1; lra. }
  rewrite Hn. rewrite decide_False by lra. simpl.
  unfold np.arctan2. f_equal.
  destruct (Rlt_dec 0 _) as [_|Hn1]; [|exfalso; apply Hn1; lra].
  replace (_ / _) with 0 by (field_simplify; lra). apply atan_0.
Qed.

(** The diagnostic in a scene where the end-effector hovers 0.3 above the
    puck: the planar distance is 0, the reported one 0.3. *)
Lemma step_touch_distance_witness :
  ∃ e' obs reward done info,
    step (H := rigid_engine (endeff_at 0.3))
         (default_config SawyerPushAndReachTXYEasyEnv) (0, 0)
         (scene_env (endeff_at 0.3))
    = Some (e', (obs, reward, done, info))
    ∧ info !! "touch_distance" = Some 0.3.
Proof.
  destruct (step_touch_distance (H := rigid_engine (endeff_at 0.3))
              (default_config SawyerPushAndReachTXYEasyEnv) (0, 0)
              (scene_env (endeff_at 0.3))) as [Hinfo Hret].
  destruct Hret as [[e' [[[obs reward] done] info]] Hs];
    [reflexivity | reflexivity | apply scene_quat_nonzero |].
  destruct (Hinfo _ _ _ _ _ Hs)
    as (ex & ey & ez & px & py & pz & theta & He & Hp & Ht & _ & Htouch).
  exists e', obs, reward, done, info. split; [exact Hs|].
  rewrite Htouch. f_equal.
  apply (step_env (H := rigid_engine (endeff_at 0.3))) in Hs;
    [|reflexivity].
  match type of Hs with
  | _ = do_simulation ?u _ ?x =>
      destruct (rigid_do_simulation (endeff_at 0.3) u 49 x) as [Hxp Hxq];
      change (frame_skip _) with 50%nat in Hs;
      rewrite <- Hs in Hxp, Hxq
  end.
  rewrite Hxp in He, Hp. rewrite Hxq in Ht. simpl in *.
  rewrite quat_to_theta_identity in Ht.
  injection He as <- <- <-. injection Hp as <- <- <-. injection Ht as <-.
  unfold np.norm. simpl. apply sqrt_lem_1; lra.
Defined.

(** ** Orientation round trip *)

Lemma sin_cos_period_Z x (k : Z) :
  sin (x + 2 * IZR k * PI) = sin x ∧ cos (x + 2 * IZR k * PI) = cos x.
Proof.
  destruct (Z_le_gt_dec 0 k) as [Hk|Hk].
  - rewrite <- (Z2Nat.id k Hk), <- INR_IZR_INZ.
    split; [apply sin_period | apply cos_period].
  - assert (Hn : (0 <= - k)%Z) by lia.
    pose proof (sin_period (x + 2 * IZR k * PI) (Z.to_nat (- k))) as Hs.
    pose proof (cos_period (x + 2 * IZR k * PI) (Z.to_nat (- k))) as Hc.
    rewrite INR_IZR_INZ, (Z2Nat.id _ Hn), opp_IZR in Hs, Hc.
    replace (x + 2 * IZR k * PI + 2 * - IZR k * PI) with x in Hs, Hc by lra.
    split; congruence.
Qed.

(** Every angle has a representative in (-pi, pi]. *)
Lemma angle_representative theta :
  ∃ (k : Z) (t : R), t = theta + 2 * IZR k * PI ∧ - PI < t <= PI.
Proof.
  pose proof PI_RGT_0 as Hpi.
  destruct (euclidian_division (PI - theta) (2 * PI)) as (k & r & Heq & Hr);
    [lra|].
  rewrite Rabs_pos_eq in Hr by lra.
  exists k, (PI - r). split; lra.
Qed.

Lemma arctan2_sin_cos_principal t :
  - PI < t <= PI → np.arctan2 (sin t) (cos t) = t.
Proof.
  intros [Hlo Hhi]. pose proof PI_RGT_0 as Hpi. unfold np.arctan2.
  destruct (Rlt_dec 0 (cos t)) as [Hc|Hc].
  - (* right half plane *)
    assert (Ht : - (PI / 2) < t < PI / 2).
    { destruct (Rle_lt_dec t (- (PI / 2))) as [Hl|Hl].
      - exfalso. pose proof (cos_le_0 (- t) ltac:(lra) ltac:(lra)) as Hn.
        rewrite cos_neg in Hn. lra.
      - destruct (Rle_lt_dec (PI / 2) t) as [Hr|Hr]; [|lra].
        exfalso. pose proof (cos_le_0 t ltac:(lra) ltac:(lra)). lra. }
    change (sin t / cos t) with (tan t). apply atan_tan. lra.
  - destruct (Rlt_dec (cos t) 0) as [Hc'|Hc'].
    + (* left half plane *)
      assert (Ht : t < - (PI / 2) ∨ PI / 2 < t).
      { destruct (Rle_lt_dec (- (PI / 2)) t) as [Hl|Hl]; [|lra].
        destruct (Rle_lt_dec t (PI / 2)) as [Hr|Hr]; [|lra].
        exfalso. pose proof (cos_ge_0 t Hl Hr). lra. }
      destruct (Rle_dec 0 (sin t)) as [Hs|Hs].
      * assert (Ht' : PI / 2 < t).
        { destruct Ht as [Ht|Ht]; [|exact Ht].
          exfalso. pose proof (sin_lt_0_var t Hlo ltac:(lra)). lra. }
        assert (Hcos : cos t = - cos (t - PI)).
        { replace t with ((t - PI) + PI) at 1 by lra. apply neg_cos. }
        assert (Hsin : sin t = - sin (t - PI)).
        { replace t with ((t - PI) + PI) at 1 by lra. apply neg_sin. }
        assert (Htan : sin t / cos t = tan (t - PI)).
        { unfold tan. rewrite Hsin, Hcos. field. lra. }
        rewrite Htan, atan_tan by lra. lra.
      * assert (Ht' : t < - (PI / 2)).
        { destruct Ht as [Ht|Ht]; [exact Ht|].
          exfalso. apply Hs. apply sin_ge_0; lra. }
        assert (Hcos : cos t = - cos (t + PI)) by (rewrite neg_cos; lra).
        assert (Htan : sin t / cos t = tan (t + PI)).
        { unfold tan. rewrite neg_sin, neg_cos. field. lra. }
        rewrite Htan, atan_tan by lra. lra.
    + (* on the vertical axis *)
      assert (Hc0 : cos t = 0) by lra.
      assert (Ht : t = PI / 2 ∨ t = - (PI / 2)).
      { destruct (Rle_lt_dec 0 t) as [Hpos|Hneg].
        - destruct (cos_eq_0_2PI_0 t Hpos ltac:(lra) Hc0); [tauto|lra].
        - rewrite <- cos_neg in Hc0.
          destruct (cos_eq_0_2PI_0 (- t) ltac:(lra) ltac:(lra) Hc0); lra. }
      destruct Ht as [-> | ->].
      * rewrite sin_PI2. destruct (Rlt_dec 0 1); [reflexivity | lra].
      * rewrite sin_neg, sin_PI2.
        destruct (Rlt_dec 0 _); [lra|].
        destruct (Rlt_dec _ 0); [reflexivity | lra].
Qed.

Lemma theta_to_quat_unfold theta :
  theta_to_quat theta = (cos (theta / 2), 0, 0, sin (theta / 2)).
Proof.
  unfold theta_to_quat, Rotation.from_euler, Rotation.as_quat,
    Rotation.make_elementary_quat, Rotation.compose_quat.
  replace (0 / 2) with 0 by lra. rewrite sin_0, cos_0.
  repeat f_equal; ring.
Qed.

Lemma quat_to_theta_z_rotation theta :
  quat_to_theta 0 0 (sin (theta / 2)) (cos (theta / 2))
  = Some (np.arctan2 (sin theta) (cos theta)).
Proof.
  unfold quat_to_theta, Rotation.from_quat.
  assert (Hn : np.norm [0; 0; sin (theta / 2); cos (theta / 2)] = 1).
  { unfold np.norm. simpl. apply sqrt_lem_1; [|lra|].
    - pose proof (Rle_0_sqr (sin (theta / 2))) as Hs.
      pose proof (Rle_0_sqr (cos (theta / 2))) as Hc. unfold Rsqr in *. lra.
    - pose proof (sin2_cos2 (theta / 2)) as Hsc. unfold Rsqr in Hsc. lra. }
  rewrite Hn, decide_False by lra. simpl.
  assert (Hs : sin theta = 2 * sin (theta / 2) * cos (theta / 2)).
  { rewrite <- sin_2a. f_equal. lra. }
  assert (Hc : cos theta
               = cos (theta / 2) * cos (theta / 2)
                 - sin (theta / 2) * sin (theta / 2)).
  { rewrite <- cos_2a. f_equal. lra. }
  rewrite Hs, Hc. do 2 f_equal; field.
Qed.

(** C3. Converting an angle to a quaternion and back, the components matched
    by name, gives the representative of the angle in (-pi, pi]: the result
    equals the angle modulo 2 pi, with no error at all over the reals and so
    within the tolerance 1e-6.  The Euler orders 'zxy' and 'zyx' agree here
    because the rotations about x and y are by the angle 0. *)
Theorem quat_to_theta_theta_to_quat (theta : R) :
  ∃ (r : R) (k : Z),
    (let '(w, x, y, z) := theta_to_quat theta in quat_to_theta x y z w)
    = Some r
    ∧ r = theta + 2 * IZR k * PI
    ∧ - PI < r <= PI
    ∧ Rabs (r - (theta + 2 * IZR k * PI)) <= 1e-6.
Proof.
  destruct (angle_representative theta) as (k & t & Ht & Hrange).
  exists t, k. split.
  { rewrite theta_to_quat_unfold, quat_to_theta_z_rotation.
    destruct (sin_cos_period_Z theta k) as [Hs Hc].
    rewrite <- Hs, <- Hc, <- Ht.
    by rewrite (arctan2_sin_cos_principal t Hrange). }
  split; [exact Ht|]. split; [exact Hrange|].
  rewrite Ht. replace (_ - _) with 0 by lra. rewrite Rabs_R0. lra.
Qed.

(** ** State mutators *)

Tactic Notation "expose_prefix" ident(l) integer(n) :=
  do n (destruct l as [|? l]; [simpl in *; lia|]).

Section Mutators.
Context `{Engine}.

Lemma set_state_data qp qv e :
  qpos (data (set_state qp qv e)) = qp
  ∧ qvel (data (set_state qp qv e)) = qv
  ∧ mocap_pos (data (set_state qp qv e)) = mocap_pos (data e)
  ∧ mocap_quat (data (set_state qp qv e)) = mocap_quat (data e)
  ∧ eq_data (data (set_state qp qv e)) = eq_data (data e)
  ∧ _goal_xyxytheta (set_state qp qv e) = _goal_xyxytheta e
  ∧ ∀ b, quat_nonzero (body_xquat (data (set_state qp qv e)) b).
Proof.
  unfold set_state.
  match goal with
  | |- context [sim_forward ?d] =>
      pose proof (sim_forward_xquat d) as Hq; unfold sim_forward in *;
      destruct (mj_forward d) as [xp xq]
  end.
  simpl in *. repeat split; try reflexivity. exact Hq.
Qed.

(** [set_puck_xytheta] returns on vectors long enough for its slices, and
    leaves the arm velocities, the vector lengths, the mocap target and the
    stored goal alone. *)
Lemma set_puck_xytheta_returns (x y theta : R) (e : Env) :
  (14 <= length (qpos (data e)))%nat →
  (14 <= length (qvel (data e)))%nat →
  ∃ e',
    set_puck_xytheta [x; y; theta] e = Some e'
    ∧ (∀ i, (i < 7)%nat → qvel (data e') !! i = qvel (data e) !! i)
    ∧ length (qpos (data e')) = length (qpos (data e))
    ∧ length (qvel (data e')) = length (qvel (data e))
    ∧ mocap_pos (data e') = mocap_pos (data e)
    ∧ _goal_xyxytheta e' = _goal_xyxytheta e.
Proof.
  intros Hqp Hqv. unfold set_puck_xytheta.
  destruct (theta_to_quat theta) as [[[qw qx] qy] qz].
  remember (qpos (data e)) as qp eqn:Eqp.
  remember (qvel (data e)) as qv eqn:Eqv.
  expose_prefix qp 14. expose_prefix qv 14.
  simpl.
  match goal with
  | |- context [set_state ?a ?b e] =>
      destruct (set_state_data a b e)
        as (Hp & Hv & Hmp & _ & _ & Hg & _);
      exists (set_state a b e)
  end.
  rewrite Hp, Hv. split; [reflexivity|].
  split.
  { intros i Hi. do 7 (destruct i as [|i]; [reflexivity|]). lia. }
  repeat split; assumption.
Qed.


Lemma set_goal_xyxytheta_returns (g : list R) (e : Env) :
  (4 <= length g)%nat →
  (28 <= length (qpos (data e)))%nat →
  (24 <= length (qvel (data e)))%nat →
  ∃ e',
    set_goal_xyxytheta g e = Some e'
    ∧ _goal_xyxytheta e' = g
    ∧ length (qpos (data e')) = length (qpos (data e))
    ∧ length (qvel (data e')) = length (qvel (data e))
    ∧ (∀ i, (i < 14)%nat → qvel (data e') !! i = qvel (data e) !! i)
    ∧ mocap_pos (data e') = mocap_pos (data e).
Proof.
  intros Hg Hqp Hqv. unfold set_goal_xyxytheta.
  destruct (last g) as [t|] eqn:Hlast;
    [|apply last_None in Hlast; subst g; simpl in Hg; lia].
  simpl. destruct (theta_to_quat t) as [[[qw qx] qy] qz].
  remember (qpos (data e)) as qp eqn:Eqp.
  remember (qvel (data e)) as qv eqn:Eqv.
  clear Hlast. expose_prefix g 4. expose_prefix qp 28. expose_prefix qv 24.
  simpl.
  match goal with
  | |- context [set_state ?a ?b ?x] =>
      destruct (set_state_data a b x)
        as (Hp & Hv & Hmp & Hmq & Heq & Hgoal & _);
      exists (set_state a b x)
  end.
  rewrite Hp, Hv, Hmp, Hgoal. simpl.
  repeat (split; [reflexivity|]).
  split; [|reflexivity].
  intros i Hi. do 14 (destruct i as [|i]; [reflexivity|]). lia.
Qed.

#[local] Arguments set_puck_xytheta : simpl never.
#[local] Arguments set_goal_xyxytheta : simpl never.
#[local] Arguments reset_mocap_welds : simpl never.
#[local] Arguments _get_obs : simpl never.

Lemma reset_mocap_welds_data e :
  qpos (data (reset_mocap_welds e)) = qpos (data e)
  ∧ qvel (data (reset_mocap_welds e)) = qvel (data e)
  ∧ mocap_pos (data (reset_mocap_welds e)) = mocap_pos (data e)
  ∧ _goal_xyxytheta (reset_mocap_welds e) = _goal_xyxytheta e
  ∧ ∀ b, quat_nonzero (body_xquat (data (reset_mocap_welds e)) b).
Proof.
  unfold reset_mocap_welds.
  match goal with
  | |- context [sim_forward ?d] =>
      pose proof (sim_forward_xquat d) as Hq; unfold sim_forward in *;
      destruct (mj_forward d) as [xp xq]
  end.
  simpl in *. destruct (eq_data (data e)); repeat split; try reflexivity;
    exact Hq.
Qed.

(** The environment after the first two phases of [reset]: canonical
    angles, velocities as before, mocap target at [INIT_HAND_POS]. *)
Lemma reset_prefix_data e :
  let e2 := Nat.iter 10
              (λ e, mkEnv (set_mocap_quat (1, 0, 1, 0)
                             (set_mocap_pos INIT_HAND_POS (data e)))
                          (_goal_xyxytheta e)) (reset_set_state e) in
  qpos (data e2) = init_angles
  ∧ qvel (data e2) = qvel (data e)
  ∧ mocap_pos (data e2) = INIT_HAND_POS.
Proof.
  simpl. unfold reset_set_state.
  destruct (set_state_data init_angles (qvel (data e)) e) as (Hp & Hv & _).
  auto.
Qed.

(** [reset] on the easy class, given the goal its sampler draws. *)
Lemma reset_returns cfg e g goal g1 :
  cls cfg = SawyerPushAndReachTXYEasyEnv →
  sample_goal_xyxytheta cfg g = Some (goal, g1) →
  (4 <= length goal)%nat →
  (24 <= length (qvel (data e)))%nat →
  ∃ e' obs,
    reset cfg e g = Some (e', (λ i, g1 (S i)), obs)
    ∧ _goal_xyxytheta e' = goal
    ∧ obs !! "desired_goal" = Some goal
    ∧ obs !! "state_desired_goal" = Some goal
    ∧ mocap_pos (data e') = INIT_HAND_POS
    ∧ (∀ i, (i < 7)%nat → qvel (data e') !! i = qvel (data e) !! i).
Proof.
  intros Hcls Hsample Hgoal Hqv. unfold reset, sample_goal_for_rollout.
  destruct (reset_prefix_data e) as (Hp2 & Hv2 & Hm2).
  match type of Hp2 with
  | qpos (data ?x) = _ => generalize dependent x; intros e2 Hp2 Hv2 Hm2
  end.
  rewrite Hsample. simpl.
  destruct (set_goal_xyxytheta_returns goal (mkEnv (data e2) goal))
    as (e4 & -> & Hg4 & Hp4 & Hv4 & Hf4 & Hm4); simpl;
    [exact Hgoal | rewrite Hp2; simpl; lia | rewrite Hv2; exact Hqv |].
  simpl in *. unfold sample_puck_xytheta. rewrite Hcls. simpl.
  destruct (set_puck_xytheta_returns 0 0.6 ((g1 0%nat - 0.5) * PI) e4)
    as (e5 & -> & Hf5 & Hp5 & Hv5 & Hm5 & Hg5);
    [rewrite Hp4, Hp2; simpl; lia | rewrite Hv4, Hv2; lia |].
  simpl.
  destruct (reset_mocap_welds_data e5) as (Hp6 & Hv6 & Hm6 & Hg6 & Hq6).
  destruct (get_obs_is_Some _ (Hq6 puck_id))
    as (obs & x & -> & _ & _ & Hdes & Hsdes).
  simpl. exists (reset_mocap_welds e5), obs.
  rewrite Hg6, Hg5, Hg4 in *.
  repeat split; try assumption.
  - congruence.
  - intros i Hi. rewrite Hv6.
    rewrite (Hf5 i Hi), Hf4 by lia. by rewrite Hv2.
Qed.

End Mutators.

(** ** Reset *)

(** C4, as the code has it.  The [set_state] call of [reset] installs the
    28 canonical joint angles together with the joint velocities the
    simulator had before the call: the velocities are carried over, not
    zeroed. *)
Theorem reset_set_state_keeps_velocities `{Engine} (e : Env) :
  qpos (data (reset_set_state e)) = init_angles
  ∧ length init_angles = 28%nat
  ∧ qvel (data (reset_set_state e)) = qvel (data e).
Proof.
  unfold reset_set_state.
  destruct (set_state_data init_angles (qvel (data e)) e) as (Hp & Hv & _).
  split; [exact Hp|]. split; [reflexivity | exact Hv].
Qed.

(** C4, as stated, fails: started from unit joint velocities, the state
    right after the [set_state] call of [reset] still has them. *)
Lemma reset_set_state_velocities_not_zeroed :
  qvel (data (reset_set_state (H := rigid_engine (hand_goal_at 0))
                              moving_env))
  = replicate 25 1
  ∧ ¬ Forall (λ v, v = 0)
        (qvel (data (reset_set_state (H := rigid_engine (hand_goal_at 0))
                                     moving_env))).
Proof.
  split; [reflexivity|].
  intros Hall. apply Forall_inv in Hall. lra.
Qed.

(** C9. Without goal randomization, [reset] on the easy class yields the
    concatenation of the fixed hand goal and the fixed puck goal as
    [desired_goal] and [state_desired_goal], from whatever state and
    generator it starts: two runs agree. *)
Theorem reset_fixed_goal `{Engine} (cfg : Config) (e1 e2 : Env)
    (g1 g2 : np.RandomState) :
  cls cfg = SawyerPushAndReachTXYEasyEnv →
  randomize_goals cfg = false →
  (4 <= length (fixed_hand_goal cfg ++ fixed_puck_goal cfg))%nat →
  (24 <= length (qvel (data e1)))%nat →
  (24 <= length (qvel (data e2)))%nat →
  ∃ e1' g1' obs1 e2' g2' obs2,
    reset cfg e1 g1 = Some (e1', g1', obs1)
    ∧ reset cfg e2 g2 = Some (e2', g2', obs2)
    ∧ obs1 !! "desired_goal"
      = Some (fixed_hand_goal cfg ++ fixed_puck_goal cfg)
    ∧ obs1 !! "state_desired_goal"
      = Some (fixed_hand_goal cfg ++ fixed_puck_goal cfg)
    ∧ obs2 !! "desired_goal" = obs1 !! "desired_goal"
    ∧ obs2 !! "state_desired_goal" = obs1 !! "state_desired_goal".
Proof.
  intros Hcls Hrand Hlen Hv1 Hv2.
  assert (Hsample : ∀ g, sample_goal_xyxytheta cfg g
            = Some (fixed_hand_goal cfg ++ fixed_puck_goal cfg, g)).
  { intros g. unfold sample_goal_xyxytheta. by rewrite Hrand. }
  destruct (reset_returns cfg e1 g1 _ _ Hcls (Hsample g1) Hlen Hv1)
    as (e1' & obs1 & Hr1 & _ & Hd1 & Hs1 & _).
  destruct (reset_returns cfg e2 g2 _ _ Hcls (Hsample g2) Hlen Hv2)
    as (e2' & obs2 & Hr2 & _ & Hd2 & Hs2 & _).
  exists e1', (λ i, g1 (S i)), obs1, e2', (λ i, g2 (S i)), obs2.
  split; [exact Hr1|]. split; [exact Hr2|].
  split; [exact Hd1|]. split; [exact Hs1|].
  split; congruence.
Qed.

Lemma reset_fixed_goal_witness :
  ∃ e1' g1' obs1 e2' g2' obs2,
    reset (H := rigid_engine (hand_goal_at 0)) fixed_goal_config
          (scene_env (hand_goal_at 0)) (constant_draws 0)
    = Some (e1', g1', obs1)
    ∧ reset (H := rigid_engine (hand_goal_at 0)) fixed_goal_config
            moving_env (constant_draws 0.5)
      = Some (e2', g2', obs2)
    ∧ obs1 !! "desired_goal" = Some [-0.05; 0.6; 0.05; 0.6; 0]
    ∧ obs2 !! "desired_goal" = Some [-0.05; 0.6; 0.05; 0.6; 0].
Proof.
  destruct (reset_fixed_goal (H := rigid_engine (hand_goal_at 0))
              fixed_goal_config (scene_env (hand_goal_at 0)) moving_env
              (constant_draws 0) (constant_draws 0.5))
    as (e1' & g1' & obs1 & e2' & g2' & obs2 & Hr1 & Hr2 & Hd1 & _ & Hd2 & _);
    [reflexivity | reflexivity | simpl; lia | simpl; lia | simpl; lia |].
  exists e1', g1', obs1, e2', g2', obs2.
  split; [exact Hr1|]. split; [exact Hr2|].
  split; [exact Hd1|]. rewrite Hd2. exact Hd1.
Defined.

(** ** Concrete runs of the reward and of the puck mutator *)



(** ** Goal sampling *)

Lemma uniform_draw_bounds lo hi u :
  lo <= hi → 0 <= u < 1 → lo <= lo + (hi - lo) * u <= hi.
Proof. intros Hlh [Hu0 Hu1]. split; nra. Qed.

(** C6, as the code has it.  With goal randomization enabled, two-entry
    hand bounds and three-entry puck bounds, the sampler maps five
    successive draws to hand x-y, puck x-y and the puck angle: the angle is
    drawn too, from its own draw and its own bounds, and the generator
    advances by five draws. *)
Theorem sample_goal_xyxytheta_draws_angle (cfg : Config) (g : np.RandomState)
    (hl0 hl1 hh0 hh1 pl0 pl1 pl2 ph0 ph1 ph2 : R) :
  randomize_goals cfg = true →
  hand_goal_low cfg = [hl0; hl1] →
  hand_goal_high cfg = [hh0; hh1] →
  puck_goal_low cfg = [pl0; pl1; pl2] →
  puck_goal_high cfg = [ph0; ph1; ph2] →
  sample_goal_xyxytheta cfg g
  = Some ([hl0 + (hh0 - hl0) * g 0%nat;
           hl1 + (hh1 - hl1) * g 1%nat;
           pl0 + (ph0 - pl0) * g 2%nat;
           pl1 + (ph1 - pl1) * g 3%nat;
           pl2 + (ph2 - pl2) * g 4%nat],
          λ i, g (5 + i)%nat)
  ∧ (pl2 <= ph2 → 0 <= g 4%nat < 1 →
     pl2 <= pl2 + (ph2 - pl2) * g 4%nat <= ph2).
Proof.
  intros Hrand Hhl Hhh Hpl Hph.
  split; [|apply uniform_draw_bounds].
  unfold sample_goal_xyxytheta. rewrite Hrand, Hhl, Hhh, Hpl, Hph.
  reflexivity.
Qed.

Lemma sample_goal_xyxytheta_draws_angle_witness :
  ∃ goal g',
    sample_goal_xyxytheta
      (default_config SawyerPushAndReachTXYEnv) (constant_draws 0.5)
    = Some (goal, g')
    ∧ goal !! 4%nat = Some (-0.2 + (0.2 - -0.2) * 0.5).
Proof.
  destruct (sample_goal_xyxytheta_draws_angle
              (default_config SawyerPushAndReachTXYEnv) (constant_draws 0.5)
              (-0.05) 0.55 0.05 0.65 (-0.05) 0.55 (-0.2) 0.05 0.65 0.2)
    as [Hs _]; [reflexivity..|].
  eexists _, _. split; [exact Hs | reflexivity].
Defined.

(** C6, as stated, fails: with the default bounds the last entry of the
    sampled goal, the puck angle, follows the generator; two generators
    give the angles -0.2 and 0. *)
Lemma sample_goal_xyxytheta_angle_is_random :
  ∃ goal1 g1' goal2 g2' theta1 theta2,
    sample_goal_xyxytheta
      (default_config SawyerPushAndReachTXYEnv) (constant_draws 0)
    = Some (goal1, g1')
    ∧ sample_goal_xyxytheta
        (default_config SawyerPushAndReachTXYEnv) (constant_draws 0.5)
      = Some (goal2, g2')
    ∧ last goal1 = Some theta1 ∧ theta1 = -0.2
    ∧ last goal2 = Some theta2 ∧ theta2 = 0
    ∧ theta1 ≠ theta2.
Proof.
  exists [-0.05 + (0.05 - -0.05) * 0; 0.55 + (0.65 - 0.55) * 0;
          -0.05 + (0.05 - -0.05) * 0; 0.55 + (0.65 - 0.55) * 0;
          -0.2 + (0.2 - -0.2) * 0],
         (λ i, constant_draws 0 (5 + i)%nat),
         [-0.05 + (0.05 - -0.05) * 0.5; 0.55 + (0.65 - 0.55) * 0.5;
          -0.05 + (0.05 - -0.05) * 0.5; 0.55 + (0.65 - 0.55) * 0.5;
          -0.2 + (0.2 - -0.2) * 0.5],
         (λ i, constant_draws 0.5 (5 + i)%nat),
         (-0.2 + (0.2 - -0.2) * 0), (-0.2 + (0.2 - -0.2) * 0.5).
  split; [reflexivity|]. split; [reflexivity|].
  split; [reflexivity|]. split; [lra|].
  split; [reflexivity|]. split; lra.
Qed.

(** ** The mocap target *)

Section Mocap.
Context `{Engine}.

Lemma do_simulation_mocap u n e :
  mocap_pos (data (do_simulation u n e)) = mocap_pos (data e)
  ∧ _goal_xyxytheta (do_simulation u n e) = _goal_xyxytheta e.
Proof.
  split; [|reflexivity]. unfold do_simulation. simpl.
  induction n as [|n IH]; simpl; [reflexivity|].
  rewrite <- IH. unfold sim_step.
  by destruct (mj_step u _) as [[qp qv] [xp xq]].
Qed.

Lemma set_puck_xytheta_mocap xytheta e e' :
  set_puck_xytheta xytheta e = Some e' →
  mocap_pos (data e') = mocap_pos (data e)
  ∧ _goal_xyxytheta e' = _goal_xyxytheta e.
Proof.
  unfold set_puck_xytheta.
  destruct xytheta as [|x [|y [|theta [|? ?]]]]; try discriminate.
  destruct (theta_to_quat theta) as [[[qw qx] qy] qz]. intros Hs.
  repeat case_bind. injection Hs as <-.
  match goal with
  | |- context [set_state ?a ?b e] =>
      destruct (set_state_data a b e) as (_ & _ & Hm & _ & _ & Hg & _)
  end.
  auto.
Qed.

Lemma mocap_set_action_pos cfg action e :
  mocap_pos (data (mocap_set_action cfg action e))
  = (np.clip ((mocap_pos (data e)).1.1 + action.1.1)
             (mocap_low cfg).1.1 (mocap_high cfg).1.1,
     np.clip ((mocap_pos (data e)).1.2 + action.1.2)
             (mocap_low cfg).1.2 (mocap_high cfg).1.2,
     np.clip ((mocap_pos (data e)).2 + action.2)
             (mocap_low cfg).2 (mocap_high cfg).2)
  ∧ _goal_xyxytheta (mocap_set_action cfg action e) = _goal_xyxytheta e
  ∧ body_xquat (data (mocap_set_action cfg action e)) = body_xquat (data e).
Proof.
  unfold mocap_set_action.
  destruct (mocap_pos (data e)) as [[px py] pz].
  destruct action as [[dx dy] dz].
  destruct (mocap_low cfg) as [[lx ly] lz].
  destruct (mocap_high cfg) as [[hx hy] hz].
  repeat split; reflexivity.
Qed.

(** The mocap target a returning [step] leaves behind is the one its call
    of [mocap_set_action] wrote. *)
Lemma step_mocap cfg a e e' res :
  step cfg a e = Some (e', res) →
  mocap_pos (data e')
  = mocap_pos (data (mocap_set_action cfg
      (vec3_scale
         (new_mocap_action (np.clip a.1 (-1) 1, np.clip a.2 (-1) 1) e)
         (pos_action_scale cfg)) e))
  ∧ _goal_xyxytheta e' = _goal_xyxytheta e.
Proof.
  unfold step. intros Hs.
  match type of Hs with
  | context [mocap_set_action cfg ?v e] =>
      destruct (mocap_set_action_pos cfg v e) as (_ & Hg1 & _);
      remember (mocap_set_action cfg v e) as e1 eqn:He1
  end.
  clear He1.
  destruct (if force_puck_in_goal_space cfg then _ else Some e1)
    as [e0|] eqn:Hforce; [|discriminate Hs].
  assert (He0 : mocap_pos (data e0) = mocap_pos (data e1)
                ∧ _goal_xyxytheta e0 = _goal_xyxytheta e1).
  { destruct (force_puck_in_goal_space cfg).
    - destruct (get_puck_xytheta e1) as [pp|]; [|discriminate Hforce].
      simpl in Hforce.
      destruct (np.clip_array pp _ _) as [cl|]; [|discriminate Hforce].
      simpl in Hforce. destruct (negb _).
      + by apply set_puck_xytheta_mocap in Hforce.
      + by injection Hforce as <-.
    - by injection Hforce as <-. }
  clear Hforce. simpl in Hs.
  match type of Hs with
  | context [do_simulation ?u ?n e0] =>
      destruct (do_simulation_mocap u n e0) as [Hm Hg];
      remember (do_simulation u n e0) as e3 eqn:He3
  end.
  clear He3. repeat case_bind. injection Hs as <- _.
  destruct He0 as [Hm0 Hg0]. split; congruence.
Qed.

End Mocap.

Section MocapBox.
Context `{Engine}.

Lemma clip_in_range x lo hi : lo <= hi → lo <= np.clip x lo hi <= hi.
Proof. intros Hlh. split; [by apply clip_ge_low | apply clip_le_high]. Qed.

Lemma mocap_set_action_box cfg action e :
  box_ordered (mocap_low cfg) (mocap_high cfg) →
  in_box (mocap_low cfg) (mocap_high cfg)
         (mocap_pos (data (mocap_set_action cfg action e))).
Proof.
  intros (Hx & Hy & Hz).
  destruct (mocap_set_action_pos cfg action e) as (-> & _).
  unfold in_box. simpl.
  repeat split; (apply clip_ge_low || apply clip_le_high); tauto.
Qed.

(** C7, as the code has it.  When the corners of the mocap box are ordered,
    the target written by [mocap_set_action] lies in the box whatever the
    requested displacement, and so does the target a returning [step]
    leaves behind. *)
Theorem mocap_set_action_in_box (cfg : Config) (e : Env) :
  box_ordered (mocap_low cfg) (mocap_high cfg) →
  (∀ action,
     in_box (mocap_low cfg) (mocap_high cfg)
            (mocap_pos (data (mocap_set_action cfg action e))))
  ∧ (∀ a e' res,
       step cfg a e = Some (e', res) →
       in_box (mocap_low cfg) (mocap_high cfg) (mocap_pos (data e'))).
Proof.
  intros Hbox. split.
  - intros action. by apply mocap_set_action_box.
  - intros a e' res Hs. apply step_mocap in Hs as [-> _].
    by apply mocap_set_action_box.
Qed.

#[local] Arguments do_simulation : simpl never.

(** [set_hand_xy] leaves the mocap target where it put it. *)
Lemma set_hand_xy_target cfg x0 x1 e :
  ∃ e', set_hand_xy cfg [x0; x1] e = Some e'
        ∧ mocap_pos (data e') = (x0, x1, 0.02).
Proof.
  unfold set_hand_xy.
  assert (Hiter : ∀ n e0, ∃ e',
    Nat.iter (S n)
      (λ oe : option Env,
         e ← oe;
         xy0 ← [x0; x1] !! 0%nat;
         xy1 ← [x0; x1] !! 1%nat;
         Some (do_simulation (replicate 7 0) (frame_skip cfg)
                 (mkEnv (set_mocap_quat (1, 0, 1, 0)
                           (set_mocap_pos (xy0, xy1, 0.02) (data e)))
                        (_goal_xyxytheta e))))
      (Some e0) = Some e'
    ∧ mocap_pos (data e') = (x0, x1, 0.02)).
  { induction n as [|n IH]; intros e0.
    - simpl. eexists. split; [reflexivity|].
      by rewrite (proj1 (do_simulation_mocap _ _ _)).
    - destruct (IH e0) as (e1 & He1 & _).
      rewrite Nat.iter_succ, He1. simpl. eexists. split; [reflexivity|].
      by rewrite (proj1 (do_simulation_mocap _ _ _)). }
  apply (Hiter 9%nat e).
Qed.

End MocapBox.

Lemma mocap_set_action_in_box_witness :
  in_box (-0.1, 0.5, 0.0) (0.1, 0.7, 0.5)
    (mocap_pos (data (mocap_set_action
                        (default_config SawyerPushAndReachTXYEasyEnv)
                        (5, -5, 5) (scene_env (hand_goal_at 0))))).
Proof.
  destruct (mocap_set_action_in_box (H := rigid_engine (hand_goal_at 0))
              (default_config SawyerPushAndReachTXYEasyEnv)
              (scene_env (hand_goal_at 0))) as [Haction _].
  - unfold box_ordered. simpl. lra.
  - apply (Haction (5, -5, 5)).
Defined.

(** C7, as stated, fails: [reset] and [set_hand_xy] write the mocap target
    unclipped.  With the default box, [reset] leaves the target at
    [INIT_HAND_POS], whose second coordinate 0.4 is below the box, and
    [set_hand_xy] asked for (1, 1) leaves it at (1, 1, 0.02). *)
Lemma reset_and_set_hand_xy_leave_box :
  (∃ e' g' obs,
     reset (H := rigid_engine (hand_goal_at 0))
           (default_config SawyerPushAndReachTXYEasyEnv)
           (scene_env (hand_goal_at 0)) (constant_draws 0.5)
     = Some (e', g', obs)
     ∧ mocap_pos (data e') = (0, 0.4, 0.02)
     ∧ ¬ in_box (mocap_low (default_config SawyerPushAndReachTXYEasyEnv))
                (mocap_high (default_config SawyerPushAndReachTXYEasyEnv))
                (mocap_pos (data e')))
  ∧ (∃ e',
     set_hand_xy (H := rigid_engine (hand_goal_at 0))
                 (default_config SawyerPushAndReachTXYEasyEnv) [1; 1]
                 (scene_env (hand_goal_at 0))
     = Some e'
     ∧ mocap_pos (data e') = (1, 1, 0.02)
     ∧ ¬ in_box (mocap_low (default_config SawyerPushAndReachTXYEasyEnv))
                (mocap_high (default_config SawyerPushAndReachTXYEasyEnv))
                (mocap_pos (data e'))).
Proof.
  split.
  - destruct (reset_returns (H := rigid_engine (hand_goal_at 0))
                (default_config SawyerPushAndReachTXYEasyEnv)
                (scene_env (hand_goal_at 0)) (constant_draws 0.5)
                _ _ eq_refl eq_refl)
      as (e' & obs & Hr & _ & _ & _ & Hm & _); [simpl; lia | simpl; lia |].
    eexists e', _, obs. split; [exact Hr|]. split; [exact Hm|].
    rewrite Hm. unfold in_box, INIT_HAND_POS. simpl. lra.
  - destruct (set_hand_xy_target (H := rigid_engine (hand_goal_at 0))
                (default_config SawyerPushAndReachTXYEasyEnv) 1 1
                (scene_env (hand_goal_at 0))) as (e' & Hs & Hm).
    exists e'. split; [exact Hs|]. split; [exact Hm|].
    rewrite Hm. unfold in_box. simpl. lra.
Qed.

(** ** The vertical correction *)

Section VerticalCorrection.
Context `{Engine}.






End VerticalCorrection.




(** ** The easy defaults *)

(** Under the defaults of the easy class the puck bounds have two entries,
    so the sampled goal has four: hand x-y and puck x-y, and no angle. *)
Example easy_config_goal_has_four_entries (g : np.RandomState) :
  ∃ goal g',
    sample_goal_xyxytheta easy_config g = Some (goal, g')
    ∧ length goal = 4%nat.
Proof. eexists _, _. split; reflexivity. Qed.

(** * Further properties *)

(** ** Step: actions, observation and reward *)

Lemma clip_idempotent x lo hi :
  lo <= hi → np.clip (np.clip x lo hi) lo hi = np.clip x lo hi.
Proof. intros Hlh. apply clip_inside. by apply clip_in_range. Qed.

Lemma broadcast_Some_length {A B C : Type} (f : A → B → C) a b r :
  np.broadcast f a b = Some r →
  length a = length b ∨ length a = 1%nat ∨ length b = 1%nat.
Proof.
  unfold np.broadcast. destruct (decide (length a = length b)); [auto|].
  destruct a as [|x [|? ?]]; destruct b as [|y [|? ?]]; simpl; intros Hr;
    try discriminate; auto.
Qed.

Section StepObservation.
Context `{Engine}.

(** X1. An action outside the unit square is treated as its clipped value:
    [step] on an action and on the action clipped to [-1, 1] x [-1, 1]
    give the same result. *)
Theorem step_clips_action (cfg : Config) (a : R * R) (e : Env) :
  step cfg a e = step cfg (np.clip a.1 (-1) 1, np.clip a.2 (-1) 1) e.
Proof.
  unfold step. simpl.
  rewrite !clip_idempotent by lra. reflexivity.
Qed.

(** What [_get_obs] returns when it returns. *)
Lemma get_obs_Some e obs :
  _get_obs e = Some obs →
  ∃ p, get_puck_xytheta e = Some p
       ∧ length (np.slice (get_endeff_pos e) 0 2 ++ p) = 5%nat
       ∧ obs = <["observation" := np.slice (get_endeff_pos e) 0 2 ++ p]>
               (<["state_observation" :=
                    np.slice (get_endeff_pos e) 0 2 ++ p]>
                (<["desired_goal" := _goal_xyxytheta e]>
                 (<["state_desired_goal" := _goal_xyxytheta e]>
                  (<["achieved_goal" :=
                       np.slice (get_endeff_pos e) 0 2 ++ p]>
                   (<["state_achieved_goal" :=
                        np.slice (get_endeff_pos e) 0 2 ++ p]> ∅))))).
Proof.
  unfold _get_obs. intros Ho.
  destruct (get_puck_xytheta e) as [p|] eqn:Hp; [|discriminate Ho].
  destruct (get_puck_xytheta_shape _ _ Hp) as [t ->].
  simpl in Ho. injection Ho as <-.
  eexists. split; [reflexivity|].
  unfold get_endeff_pos. rewrite get_pos_shape. split; reflexivity.
Qed.

(** The observation and the reward of a returning [step]. *)
Lemma step_obs cfg a e e' obs reward done info :
  step cfg a e = Some (e', (obs, reward, done, info)) →
  _get_obs e' = Some obs
  ∧ compute_reward (np.clip a.1 (-1) 1, np.clip a.2 (-1) 1) obs = Some reward
  ∧ done = false.
Proof.
  unfold step. intros Hs.
  destruct (if force_puck_in_goal_space cfg then _ else _)
    as [e0|]; [|discriminate Hs].
  simpl in Hs.
  match type of Hs with
  | context [do_simulation ?u ?n e0] =>
      remember (do_simulation u n e0) as e3 eqn:He3
  end.
  clear He3.
  destruct (_get_obs e3) as [o|] eqn:Ho; [|discriminate Hs].
  simpl in Hs.
  destruct (compute_reward _ o) as [r|] eqn:Hr; [|discriminate Hs].
  simpl in Hs. repeat case_bind. injection Hs as <- <- <- <- _.
  auto.
Qed.

(** X2. A returning [step] reports the state it leaves behind: the four
    observation slots all hold the five-entry vector of end-effector x-y
    and puck x, y, angle, the two goal slots hold the stored goal, which
    the step does not change, the episode is never done, and the reward is
    [compute_reward] of that observation, hence never positive. *)
Theorem step_observation_reward (cfg : Config) (a : R * R) (e e' : Env)
    (obs : gmap string (list R)) (reward : R) (done : bool)
    (info : gmap string R) :
  step cfg a e = Some (e', (obs, reward, done, info)) →
  ∃ p x,
    get_puck_xytheta e' = Some p
    ∧ x = np.slice (get_endeff_pos e') 0 2 ++ p
    ∧ length x = 5%nat
    ∧ obs !! "observation" = Some x
    ∧ obs !! "state_observation" = Some x
    ∧ obs !! "achieved_goal" = Some x
    ∧ obs !! "state_achieved_goal" = Some x
    ∧ obs !! "desired_goal" = Some (_goal_xyxytheta e)
    ∧ obs !! "state_desired_goal" = Some (_goal_xyxytheta e)
    ∧ _goal_xyxytheta e' = _goal_xyxytheta e
    ∧ done = false
    ∧ compute_reward a obs = Some reward
    ∧ reward <= 0.
Proof.
  intros Hs.
  destruct (step_obs _ _ _ _ _ _ _ _ Hs) as (Ho & Hr & ->).
  destruct (step_mocap _ _ _ _ _ Hs) as [_ Hg].
  destruct (get_obs_Some _ _ Ho) as (p & Hp & Hlen & ->).
  exists p, (np.slice (get_endeff_pos e') 0 2 ++ p).
  rewrite <- Hg.
  do 11 (split; [done|]).
  split; [exact Hr|].
  unfold compute_reward in Hr.
  repeat case_bind. injection Hr as <-.
  pose proof (norm_nonneg l1). lra.
Qed.

(** A returning [step] started from a stored goal of five entries or
    one. *)
Lemma step_Some_goal_shape cfg a e r :
  step cfg a e = Some r →
  length (_goal_xyxytheta e) = 5%nat ∨ length (_goal_xyxytheta e) = 1%nat.
Proof.
  destruct r as [e' [[[obs reward] done] info]]. intros Hs.
  destruct (step_obs _ _ _ _ _ _ _ _ Hs) as (Ho & Hr & _).
  destruct (step_mocap _ _ _ _ _ Hs) as [_ Hg].
  destruct (get_obs_Some _ _ Ho) as (p & Hp & Hlen & Hobs).
  assert (Ha : obs !! "state_achieved_goal"
               = Some (np.slice (get_endeff_pos e') 0 2 ++ p))
    by (by rewrite Hobs).
  assert (Hdes : obs !! "state_desired_goal" = Some (_goal_xyxytheta e))
    by (by rewrite Hobs, Hg).
  unfold compute_reward in Hr. rewrite Ha, Hdes in Hr.
  cbn [mbind option_bind] in Hr.
  match type of Hr with
  | context [np.subtract ?x ?g] =>
      destruct (np.subtract x g) as [d|] eqn:Hd; [|discriminate Hr]
  end.
  apply broadcast_Some_length in Hd. rewrite Hlen in Hd.
  destruct Hd as [Hd|[Hd|Hd]]; [by left | discriminate | by right].
Qed.

(** X3. [step] raises whenever the stored goal has neither five entries
    nor one: the reward subtracts the goal from the five-entry achieved
    vector, and numpy cannot broadcast the two shapes. *)
Theorem step_raises_on_goal_shape (cfg : Config) (a : R * R) (e : Env) :
  length (_goal_xyxytheta e) ≠ 5%nat →
  length (_goal_xyxytheta e) ≠ 1%nat →
  step cfg a e = None.
Proof.
  intros H5 H1.
  destruct (step cfg a e) as [r|] eqn:Hs; [exfalso|reflexivity].
  destruct (step_Some_goal_shape _ _ _ _ Hs); contradiction.
Qed.

(** X4. On the easy class, when the sampled goal has at least four entries
    but not five (four under the easy defaults, six for the default fixed
    goals), [reset] returns and every [step] after it raises. *)
Theorem reset_then_step_raises (cfg : Config) (e : Env)
    (g g1 : np.RandomState) (goal : list R) :
  cls cfg = SawyerPushAndReachTXYEasyEnv →
  sample_goal_xyxytheta cfg g = Some (goal, g1) →
  (4 <= length goal)%nat →
  length goal ≠ 5%nat →
  (24 <= length (qvel (data e)))%nat →
  ∃ e' g' obs,
    reset cfg e g = Some (e', g', obs)
    ∧ obs !! "desired_goal" = Some goal
    ∧ ∀ a, step cfg a e' = None.
Proof.
  intros Hcls Hsample Hlen H5 Hqv.
  destruct (reset_returns cfg e g goal g1 Hcls Hsample Hlen Hqv)
    as (e' & obs & Hr & Hg & Hd & _).
  exists e', (λ i, g1 (S i)), obs.
  split; [exact Hr|]. split; [exact Hd|].
  intros a.
  destruct (step cfg a e') as [r|] eqn:Hs; [exfalso|reflexivity].
  destruct (step_Some_goal_shape _ _ _ _ Hs) as [Hs5|Hs1];
    rewrite Hg in *; [contradiction | lia].
Qed.

End StepObservation.

Lemma step_observation_reward_witness :
  ∃ e' obs reward done info x,
    step (H := rigid_engine (hand_goal_at 0.059))
         (default_config SawyerPushAndReachTXYEasyEnv) (3, -3)
         (scene_env (hand_goal_at 0.059))
    = Some (e', (obs, reward, done, info))
    ∧ obs !! "observation" = Some x
    ∧ obs !! "state_achieved_goal" = Some x
    ∧ obs !! "desired_goal" = Some [0; 0; 0; 0; 0]
    ∧ done = false
    ∧ reward <= 0.
Proof.
  destruct (step_returns (H := rigid_engine (hand_goal_at 0.059))
              (default_config SawyerPushAndReachTXYEasyEnv) (3, -3)
              (scene_env (hand_goal_at 0.059)) eq_refl eq_refl
              (scene_quat_nonzero _))
    as [[e' [[[obs reward] done] info]] Hs].
  destruct (step_observation_reward _ _ _ _ _ _ _ _ Hs)
    as (p & x & _ & _ & _ & Ho & _ & _ & Ha & Hd & _ & _ & Hdone & _ & Hr).
  exists e', obs, reward, done, info, x.
  split; [exact Hs|]. split; [exact Ho|]. split; [exact Ha|].
  split; [exact Hd|]. split; [exact Hdone | exact Hr].
Defined.

Lemma step_raises_on_goal_shape_witness :
  step (H := rigid_engine (hand_goal_at 0))
       (default_config SawyerPushAndReachTXYEasyEnv) (0, 0)
       (mkEnv (rest_data (replicate 25 0) (0, 0.6, 0.06) (hand_goal_at 0))
              [-0.05; 0.6; 0; 0.05; 0.6; 0])
  = None.
Proof.
  apply (step_raises_on_goal_shape (H := rigid_engine (hand_goal_at 0)));
    simpl; lia.
Defined.

Lemma reset_then_step_raises_witness :
  ∃ e' g' obs,
    reset (H := rigid_engine (hand_goal_at 0)) easy_config
          (scene_env (hand_goal_at 0)) (constant_draws 0.5)
    = Some (e', g', obs)
    ∧ ∀ a, step (H := rigid_engine (hand_goal_at 0)) easy_config a e' = None.
Proof.
  destruct (reset_then_step_raises (H := rigid_engine (hand_goal_at 0))
              easy_config (scene_env (hand_goal_at 0))
              (constant_draws 0.5) _ _ eq_refl eq_refl)
    as (e' & g' & obs & Hr & _ & Hstep);
    [simpl; lia | simpl; lia | simpl; lia |].
  exists e', g', obs. split; [exact Hr | exact Hstep].
Defined.

(** ** Goal mutators *)

Section GoalMutators.
Context `{Engine}.

(** The goal stored by a returning [set_goal_xyxytheta] is its argument;
    the mocap target is left alone. *)
Lemma set_goal_xyxytheta_stores g e e' :
  set_goal_xyxytheta g e = Some e' →
  _goal_xyxytheta e' = g ∧ mocap_pos (data e') = mocap_pos (data e).
Proof.
  unfold set_goal_xyxytheta. intros Hs.
  destruct (last g) as [t|]; [|discriminate Hs]. simpl in Hs.
  destruct (theta_to_quat t) as [[[qw qx] qy] qz].
  repeat case_bind. injection Hs as <-.
  match goal with
  | |- context [set_state ?a ?b ?x] =>
      destruct (set_state_data a b x) as (_ & _ & Hm & _ & _ & Hg & _)
  end.
  auto.
Qed.

(** X5. On joint vectors long enough for its slices, [set_goal_xyxytheta]
    returns exactly for goals of two entries or of at least four: an empty
    goal has no last entry, and with one or three entries a slice
    assignment gets two values for three places. *)
Theorem set_goal_xyxytheta_returns_iff (g : list R) (e : Env) :
  (28 <= length (qpos (data e)))%nat →
  (24 <= length (qvel (data e)))%nat →
  is_Some (set_goal_xyxytheta g e)
  ↔ length g = 2%nat ∨ (4 <= length g)%nat.
Proof.
  intros Hqp Hqv. split.
  - unfold set_goal_xyxytheta.
    destruct g as [|g0 [|g1 [|g2 [|g3 rest]]]]; simpl;
      [intros [? [=]] | | auto | | intros _; right; lia].
    + destruct (theta_to_quat g0) as [[[qw qx] qy] qz].
      remember (qpos (data e)) as qp eqn:Eqp.
      expose_prefix qp 28. simpl. intros [? [=]].
    + destruct (theta_to_quat g2) as [[[qw qx] qy] qz].
      remember (qpos (data e)) as qp eqn:Eqp.
      remember (qvel (data e)) as qv eqn:Eqv.
      expose_prefix qp 28. expose_prefix qv 24. simpl. intros [? [=]].
  - intros [H2|H4].
    + unfold set_goal_xyxytheta.
      destruct g as [|g0 [|g1 [|? ?]]]; try discriminate H2. simpl.
      destruct (theta_to_quat g1) as [[[qw qx] qy] qz].
      remember (qpos (data e)) as qp eqn:Eqp.
      remember (qvel (data e)) as qv eqn:Eqv.
      expose_prefix qp 28. expose_prefix qv 24. simpl. eauto.
    + destruct (set_goal_xyxytheta_returns g e H4 Hqp Hqv) as (e' & -> & _).
      eauto.
Qed.

(** X6. What [set_goal_xyxytheta] writes for a goal of at least four
    entries: the stored goal; the hand-goal marker position (joint
    positions 14..16) from the first two entries, the puck-goal marker
    position (21..23) from the next two, both at height 0.02; the puck-goal
    marker quaternion (24..27) from the last entry; zero velocities at
    14..16 and 21..23.  Every other joint position and velocity, the
    velocities 24..27 included, and the mocap target are left alone. *)
Theorem set_goal_xyxytheta_frame (g0 g1 g2 g3 : R) (rest : list R) (e : Env) :
  (28 <= length (qpos (data e)))%nat →
  (24 <= length (qvel (data e)))%nat →
  ∃ e',
    set_goal_xyxytheta (g0 :: g1 :: g2 :: g3 :: rest) e = Some e'
    ∧ _goal_xyxytheta e' = g0 :: g1 :: g2 :: g3 :: rest
    ∧ np.slice (qpos (data e')) 14 17 = [g0; g1; 0.02]
    ∧ np.slice (qpos (data e')) 21 24 = [g2; g3; 0.02]
    ∧ (let '(qw, qx, qy, qz) := theta_to_quat (default g3 (last rest)) in
       np.slice (qpos (data e')) 24 28 = [qw; qx; qy; qz])
    ∧ np.slice (qvel (data e')) 14 17 = [0; 0; 0]
    ∧ np.slice (qvel (data e')) 21 24 = [0; 0; 0]
    ∧ (∀ i, (i < 14 ∨ 17 <= i < 21 ∨ 28 <= i)%nat →
         qpos (data e') !! i = qpos (data e) !! i)
    ∧ (∀ i, (i < 14 ∨ 17 <= i < 21 ∨ 24 <= i)%nat →
         qvel (data e') !! i = qvel (data e) !! i)
    ∧ mocap_pos (data e') = mocap_pos (data e).
Proof.
  intros Hqp Hqv. unfold set_goal_xyxytheta.
  assert (Hlast : last (g0 :: g1 :: g2 :: g3 :: rest)
                  = Some (default g3 (last rest))).
  { rewrite !last_cons. by destruct (last rest). }
  rewrite Hlast. simpl.
  destruct (theta_to_quat (default g3 (last rest))) as [[[qw qx] qy] qz].
  remember (qpos (data e)) as qp eqn:Eqp.
  remember (qvel (data e)) as qv eqn:Eqv.
  expose_prefix qp 28. expose_prefix qv 24.
  simpl.
  match goal with
  | |- context [set_state ?a ?b ?x] =>
      destruct (set_state_data a b x)
        as (Hp & Hv & Hmp & _ & _ & Hgoal & _);
      exists (set_state a b x)
  end.
  rewrite Hp, Hv, Hmp, Hgoal. simpl.
  repeat (split; [reflexivity|]).
  split; [|split; [|reflexivity]].
  - intros i [Hi|[Hi|Hi]].
    + do 14 (destruct i as [|i]; [reflexivity|]). lia.
    + do 17 (destruct i as [|i]; [lia|]).
      do 4 (destruct i as [|i]; [reflexivity|]). lia.
    + do 28 (destruct i as [|i]; [lia|]). reflexivity.
  - intros i [Hi|[Hi|Hi]].
    + do 14 (destruct i as [|i]; [reflexivity|]). lia.
    + do 17 (destruct i as [|i]; [lia|]).
      do 4 (destruct i as [|i]; [reflexivity|]). lia.
    + do 24 (destruct i as [|i]; [lia|]). reflexivity.
Qed.

(** X7. With a two-entry goal the slice assignments broadcast: the
    puck-goal marker is put at (0.02, 0.02, 0.02), since the empty puck
    part leaves only the height to repeat, and its angle is the last
    entry, the hand's y. *)
Theorem set_goal_xyxytheta_two_entries (g0 g1 : R) (e : Env) :
  (28 <= length (qpos (data e)))%nat →
  (24 <= length (qvel (data e)))%nat →
  ∃ e',
    set_goal_xyxytheta [g0; g1] e = Some e'
    ∧ _goal_xyxytheta e' = [g0; g1]
    ∧ np.slice (qpos (data e')) 14 17 = [g0; g1; 0.02]
    ∧ np.slice (qpos (data e')) 21 24 = [0.02; 0.02; 0.02]
    ∧ (let '(qw, qx, qy, qz) := theta_to_quat g1 in
       np.slice (qpos (data e')) 24 28 = [qw; qx; qy; qz]).
Proof.
  intros Hqp Hqv. unfold set_goal_xyxytheta. simpl.
  destruct (theta_to_quat g1) as [[[qw qx] qy] qz].
  remember (qpos (data e)) as qp eqn:Eqp.
  remember (qvel (data e)) as qv eqn:Eqv.
  expose_prefix qp 28. expose_prefix qv 24.
  simpl.
  match goal with
  | |- context [set_state ?a ?b ?x] =>
      destruct (set_state_data a b x) as (Hp & _ & _ & _ & _ & Hgoal & _);
      exists (set_state a b x)
  end.
  rewrite Hp, Hgoal. repeat split; reflexivity.
Qed.

(** X8. [set_goal] and [get_goal] round-trip: after a returning
    [set_goal], both entries of [get_goal] are the [state_desired_goal]
    that was given, whatever its [desired_goal] entry; a dictionary
    without [state_desired_goal] raises; and setting the goal an
    environment reports stores that same goal. *)
Theorem set_goal_get_goal (goal : gmap string (list R)) (e : Env) :
  (goal !! "state_desired_goal" = None → set_goal goal e = None)
  ∧ (∀ g e',
       goal !! "state_desired_goal" = Some g →
       set_goal goal e = Some e' →
       get_goal e' !! "desired_goal" = Some g
       ∧ get_goal e' !! "state_desired_goal" = Some g)
  ∧ (∀ g,
       goal !! "state_desired_goal" = Some g →
       (4 <= length g)%nat →
       (28 <= length (qpos (data e)))%nat →
       (24 <= length (qvel (data e)))%nat →
       is_Some (set_goal goal e))
  ∧ (∀ e', set_goal (get_goal e) e = Some e' →
       _goal_xyxytheta e' = _goal_xyxytheta e).
Proof.
  split; [|split; [|split]].
  - intros Hnone. unfold set_goal. by rewrite Hnone.
  - intros g e' Hg. unfold set_goal. rewrite Hg. simpl. intros Hs.
    apply set_goal_xyxytheta_stores in Hs as [Hs _].
    unfold get_goal. rewrite Hs. split; reflexivity.
  - intros g Hg Hlen Hqp Hqv. unfold set_goal. rewrite Hg. simpl.
    destruct (set_goal_xyxytheta_returns g e Hlen Hqp Hqv) as (e' & -> & _).
    eauto.
  - intros e'. unfold set_goal, get_goal.
    rewrite lookup_insert_ne by done. rewrite lookup_insert_eq. simpl.
    intros Hs. by apply set_goal_xyxytheta_stores in Hs as [Hs _].
Qed.

End GoalMutators.

Lemma set_goal_xyxytheta_returns_iff_witness :
  is_Some (set_goal_xyxytheta (H := rigid_engine (hand_goal_at 0))
             [0.05; 0.6] moving_env)
  ∧ ¬ is_Some (set_goal_xyxytheta (H := rigid_engine (hand_goal_at 0))
                 [0.05; 0.6; 0.1] moving_env).
Proof.
  split.
  - apply (set_goal_xyxytheta_returns_iff
             (H := rigid_engine (hand_goal_at 0)));
      [simpl; lia | simpl; lia | left; reflexivity].
  - intros Hs.
    apply (set_goal_xyxytheta_returns_iff
             (H := rigid_engine (hand_goal_at 0))) in Hs;
      [simpl in Hs; lia | simpl; lia | simpl; lia].
Defined.

Lemma set_goal_xyxytheta_frame_witness :
  ∃ e',
    set_goal_xyxytheta (H := rigid_engine (hand_goal_at 0))
                       [0.01; 0.6; 0.02; 0.61; 0.1] moving_env = Some e'
    ∧ np.slice (qpos (data e')) 14 17 = [0.01; 0.6; 0.02]
    ∧ np.slice (qpos (data e')) 21 24 = [0.02; 0.61; 0.02]
    ∧ np.slice (qvel (data e')) 21 24 = [0; 0; 0]
    ∧ qvel (data e') !! 24%nat = Some 1.
Proof.
  destruct (set_goal_xyxytheta_frame (H := rigid_engine (hand_goal_at 0))
              0.01 0.6 0.02 0.61 [0.1] moving_env)
    as (e' & Hs & _ & Hh & Hp & _ & _ & Hv & _ & Hf & _);
    [simpl; lia | simpl; lia |].
  exists e'. split; [exact Hs|]. split; [exact Hh|]. split; [exact Hp|].
  split; [exact Hv|]. rewrite (Hf 24%nat) by lia. reflexivity.
Defined.

Lemma set_goal_xyxytheta_two_entries_witness :
  ∃ e',
    set_goal_xyxytheta (H := rigid_engine (hand_goal_at 0))
                       [0.05; 0.6] moving_env = Some e'
    ∧ np.slice (qpos (data e')) 21 24 = [0.02; 0.02; 0.02].
Proof.
  destruct (set_goal_xyxytheta_two_entries
              (H := rigid_engine (hand_goal_at 0)) 0.05 0.6 moving_env)
    as (e' & Hs & _ & _ & Hp & _); [simpl; lia | simpl; lia |].
  exists e'. split; [exact Hs | exact Hp].
Defined.

Lemma set_goal_get_goal_witness :
  ∃ e',
    set_goal (H := rigid_engine (hand_goal_at 0))
             (<["state_desired_goal" := [0.01; 0.6; 0.02; 0.61; 0.1]]> ∅)
             moving_env = Some e'
    ∧ get_goal e' !! "desired_goal" = Some [0.01; 0.6; 0.02; 0.61; 0.1].
Proof.
  destruct (set_goal_get_goal (H := rigid_engine (hand_goal_at 0))
              (<["state_desired_goal" := [0.01; 0.6; 0.02; 0.61; 0.1]]> ∅)
              moving_env) as (_ & Hget & Hret & _).
  destruct (Hret [0.01; 0.6; 0.02; 0.61; 0.1] eq_refl) as [e' Hs];
    [simpl; lia | simpl; lia | simpl; lia |].
  exists e'. split; [exact Hs|].
  apply (Hget _ _ eq_refl Hs).
Defined.

(** ** Hand target, goal matching and checkpoints *)

Section HandAndCheckpoint.
Context `{Engine}.

#[local] Arguments do_simulation : simpl never.

Lemma do_simulation_sizes u n e :
  engine_keeps_sizes →
  length (qpos (data (do_simulation u n e))) = length (qpos (data e))
  ∧ length (qvel (data (do_simulation u n e))) = length (qvel (data e)).
Proof.
  intros Hkeep. unfold do_simulation. simpl.
  induction n as [|n IH]; simpl; [auto|].
  destruct IH as [IHp IHv]. rewrite <- IHp, <- IHv.
  destruct (Hkeep u (Nat.iter n (sim_step u) (data e))) as [Hp Hv].
  unfold sim_step.
  destruct (mj_step u _) as [[qp qv] [xp xq]]. simpl in *. auto.
Qed.

(** One pass of the loop of [set_hand_xy]. *)
Lemma set_hand_xy_iter cfg x0 x1 rest n e :
  ∃ e',
    Nat.iter (S n)
      (λ oe : option Env,
         e ← oe;
         xy0 ← (x0 :: x1 :: rest) !! 0%nat;
         xy1 ← (x0 :: x1 :: rest) !! 1%nat;
         Some (do_simulation (replicate 7 0) (frame_skip cfg)
                 (mkEnv (set_mocap_quat (1, 0, 1, 0)
                           (set_mocap_pos (xy0, xy1, 0.02) (data e)))
                        (_goal_xyxytheta e))))
      (Some e) = Some e'
    ∧ mocap_pos (data e') = (x0, x1, 0.02)
    ∧ _goal_xyxytheta e' = _goal_xyxytheta e
    ∧ (engine_keeps_sizes →
       length (qpos (data e')) = length (qpos (data e))
       ∧ length (qvel (data e')) = length (qvel (data e))).
Proof.
  induction n as [|n IH].
  - simpl. eexists. split; [reflexivity|].
    rewrite (proj1 (do_simulation_mocap _ _ _)).
    split; [reflexivity|]. split; [reflexivity|].
    intros Hkeep. apply (do_simulation_sizes (replicate 7 0)
      (frame_skip cfg)
      (mkEnv (set_mocap_quat (1, 0, 1, 0)
                (set_mocap_pos (x0, x1, 0.02) (data e)))
             (_goal_xyxytheta e)) Hkeep).
  - destruct IH as (e1 & He1 & _ & Hg1 & Hsz1).
    rewrite Nat.iter_succ, He1. simpl. eexists. split; [reflexivity|].
    rewrite (proj1 (do_simulation_mocap _ _ _)).
    split; [reflexivity|]. split; [exact Hg1|].
    intros Hkeep. destruct (Hsz1 Hkeep) as [<- <-].
    apply (do_simulation_sizes (replicate 7 0)
      (frame_skip cfg)
      (mkEnv (set_mocap_quat (1, 0, 1, 0)
                (set_mocap_pos (x0, x1, 0.02) (data e1)))
             (_goal_xyxytheta e1)) Hkeep).
Qed.

Lemma set_hand_xy_short cfg xy e :
  (length xy < 2)%nat → set_hand_xy cfg xy e = None.
Proof.
  intros Hlen. unfold set_hand_xy.
  assert (Hiter : ∀ n, Nat.iter (S n)
    (λ oe : option Env,
       e ← oe;
       xy0 ← xy !! 0%nat;
       xy1 ← xy !! 1%nat;
       Some (do_simulation (replicate 7 0) (frame_skip cfg)
               (mkEnv (set_mocap_quat (1, 0, 1, 0)
                         (set_mocap_pos (xy0, xy1, 0.02) (data e)))
                      (_goal_xyxytheta e))))
    (Some e) = None).
  { induction n as [|n IH].
    - destruct xy as [|x [|? ?]]; simpl in *; [reflexivity..|lia].
    - rewrite Nat.iter_succ, IH. reflexivity. }
  apply (Hiter 9%nat).
Qed.

(** X9. [set_hand_xy] returns exactly when it is given at least two
    coordinates; it then leaves the mocap target at [(x, y, 0.02)], as
    requested and unclipped, and does not touch the stored goal.  With
    fewer coordinates the indexing raises. *)
Theorem set_hand_xy_target_and_errors (cfg : Config) (xy : list R) (e : Env) :
  (∀ x0 x1 rest,
     xy = x0 :: x1 :: rest →
     ∃ e', set_hand_xy cfg xy e = Some e'
           ∧ mocap_pos (data e') = (x0, x1, 0.02)
           ∧ _goal_xyxytheta e' = _goal_xyxytheta e)
  ∧ ((length xy < 2)%nat → set_hand_xy cfg xy e = None).
Proof.
  split; [|apply set_hand_xy_short].
  intros x0 x1 rest ->.
  destruct (set_hand_xy_iter cfg x0 x1 rest 9 e) as (e' & He' & Hm & Hg & _).
  exists e'. auto.
Qed.

(** The puck entries [set_puck_xytheta] writes. *)
Lemma set_puck_xytheta_slices x y theta e :
  (14 <= length (qpos (data e)))%nat →
  (14 <= length (qvel (data e)))%nat →
  ∃ e',
    set_puck_xytheta [x; y; theta] e = Some e'
    ∧ np.slice (qpos (data e')) 7 10 = [x; y; 0.02]
    ∧ (let '(qw, qx, qy, qz) := theta_to_quat theta in
       np.slice (qpos (data e')) 10 14 = [qw; qx; qy; qz])
    ∧ np.slice (qvel (data e')) 7 14 = [0; 0; 0; 0; 0; 0; 0].
Proof.
  intros Hqp Hqv. unfold set_puck_xytheta.
  destruct (theta_to_quat theta) as [[[qw qx] qy] qz].
  remember (qpos (data e)) as qp eqn:Eqp.
  remember (qvel (data e)) as qv eqn:Eqv.
  expose_prefix qp 14. expose_prefix qv 14.
  simpl.
  match goal with
  | |- context [set_state ?a ?b e] =>
      destruct (set_state_data a b e) as (Hp & Hv & _);
      exists (set_state a b e)
  end.
  rewrite Hp, Hv. repeat split; reflexivity.
Qed.

(** X10. [set_to_goal] moves the hand target to the first two entries of
    the goal and the puck to its last three, read as x, y and angle; it
    does not store the goal.  It needs [state_desired_goal] with at least
    three entries: a missing key or a shorter goal raises. *)
Theorem set_to_goal_places_hand_and_puck (cfg : Config)
    (goal : gmap string (list R)) (e : Env) :
  (goal !! "state_desired_goal" = None → set_to_goal cfg goal e = None)
  ∧ (∀ g, goal !! "state_desired_goal" = Some g →
       (length g < 3)%nat → set_to_goal cfg goal e = None)
  ∧ (∀ g, goal !! "state_desired_goal" = Some g →
       (3 <= length g)%nat →
       engine_keeps_sizes →
       (14 <= length (qpos (data e)))%nat →
       (14 <= length (qvel (data e)))%nat →
       ∃ e' g0 g1 x y theta,
         set_to_goal cfg goal e = Some e'
         ∧ np.slice g 0 2 = [g0; g1]
         ∧ slice_from_end g 3 = [x; y; theta]
         ∧ mocap_pos (data e') = (g0, g1, 0.02)
         ∧ np.slice (qpos (data e')) 7 10 = [x; y; 0.02]
         ∧ (let '(qw, qx, qy, qz) := theta_to_quat theta in
            np.slice (qpos (data e')) 10 14 = [qw; qx; qy; qz])
         ∧ np.slice (qvel (data e')) 7 14 = [0; 0; 0; 0; 0; 0; 0]
         ∧ _goal_xyxytheta e' = _goal_xyxytheta e).
Proof.
  split; [|split].
  - intros Hnone. unfold set_to_goal. by rewrite Hnone.
  - intros g Hg Hlen. unfold set_to_goal. rewrite Hg. simpl.
    destruct g as [|g0 [|g1 [|? ?]]]; simpl in Hlen; try lia.
    + by rewrite set_hand_xy_short by (simpl; lia).
    + by rewrite set_hand_xy_short by (simpl; lia).
    + destruct (set_hand_xy cfg _ e); reflexivity.
  - intros g Hg Hlen Hkeep Hqp Hqv. unfold set_to_goal. rewrite Hg. simpl.
    assert (Htail : ∃ x y theta, slice_from_end g 3 = [x; y; theta]).
    { unfold slice_from_end.
      assert (Hl : length (drop (length g - 3) g) = 3%nat)
        by (rewrite length_drop; lia).
      destruct (drop (length g - 3) g) as [|x [|y [|t [|? ?]]]];
        try discriminate Hl. eauto. }
    destruct Htail as (x & y & theta & Htail).
    destruct g as [|g0 [|g1 rest]]; simpl in Hlen; try lia.
    change (np.slice (g0 :: g1 :: rest) 0 2) with [g0; g1].
    unfold set_hand_xy.
    destruct (set_hand_xy_iter cfg g0 g1 [] 9 e)
      as (e1 & -> & Hm1 & Hg1 & Hsz1).
    destruct (Hsz1 Hkeep) as [Hp1 Hv1]. simpl. rewrite Htail.
    destruct (set_puck_xytheta_slices x y theta e1)
      as (e' & He' & Hxy & Hq & Hv); [lia | lia |].
    destruct (set_puck_xytheta_mocap _ _ _ He') as [Hm' Hg'].
    exists e', g0, g1, x, y, theta.
    split; [exact He'|]. split; [reflexivity|]. split; [reflexivity|].
    split; [congruence|]. split; [exact Hxy|]. split; [exact Hq|].
    split; [exact Hv | congruence].
Qed.

(** X11. [reset_mocap_welds] rewrites the data of every weld constraint to
    the identity pose and nothing else: the other constraints, their
    number and their types, the joint state, the mocap target and the
    stored goal are kept, and a second call changes no constraint. *)
Theorem reset_mocap_welds_identity (e : Env) :
  (∀ rows, eq_data (data e) = Some rows →
     ∃ rows',
       eq_data (data (reset_mocap_welds e)) = Some rows'
       ∧ length rows' = length rows
       ∧ ∀ i ty dat, rows !! i = Some (ty, dat) →
           rows' !! i
           = Some (ty, if decide (ty = EQ_WELD)
                       then [0; 0; 0; 1; 0; 0; 0] else dat))
  ∧ (eq_data (data e) = None → eq_data (data (reset_mocap_welds e)) = None)
  ∧ eq_data (data (reset_mocap_welds (reset_mocap_welds e)))
    = eq_data (data (reset_mocap_welds e))
  ∧ qpos (data (reset_mocap_welds e)) = qpos (data e)
  ∧ qvel (data (reset_mocap_welds e)) = qvel (data e)
  ∧ mocap_pos (data (reset_mocap_welds e)) = mocap_pos (data e)
  ∧ _goal_xyxytheta (reset_mocap_welds e) = _goal_xyxytheta e.
Proof.
  assert (Heq : ∀ e0, eq_data (data (reset_mocap_welds e0))
    = match eq_data (data e0) with
      | Some rows =>
          Some (map (λ row : EqType * list R,
                       if decide (row.1 = EQ_WELD)
                       then (row.1, [0; 0; 0; 1; 0; 0; 0]) else row) rows)
      | None => None
      end).
  { intros e0. unfold reset_mocap_welds, sim_forward.
    destruct (mj_forward _) as [xp xq]. simpl.
    destruct (eq_data (data e0)) as [rows|] eqn:Hrows; simpl;
      [reflexivity | exact Hrows]. }
  destruct (reset_mocap_welds_data e) as (Hp & Hv & Hm & Hg & _).
  split; [|split; [|split]].
  - intros rows Hrows. eexists. rewrite Heq, Hrows.
    split; [reflexivity|]. split; [apply length_map|].
    intros i ty dat Hi. rewrite list_lookup_fmap, Hi. simpl.
    by destruct (decide (ty = EQ_WELD)).
  - intros Hnone. by rewrite Heq, Hnone.
  - rewrite (Heq (reset_mocap_welds e)), (Heq e).
    destruct (eq_data (data e)) as [rows|]; [|reflexivity].
    f_equal. rewrite <- list_fmap_compose. apply list_fmap_ext.
    intros i [ty dat] _. simpl.
    destruct (decide (ty = EQ_WELD)) as [->|Hne]; simpl;
      [reflexivity | by rewrite decide_False].
  - auto.
Qed.

(** X12. A checkpoint round-trips through [get_env_state] and
    [set_env_state]: restoring the state taken from one environment into
    another yields the joint positions, joint velocities and mocap state
    of the first, and taking the state again gives the checkpoint back.
    The stored goal and the constraint data are not part of the
    checkpoint: they stay those of the environment restored into. *)
Theorem set_env_state_get_env_state (e1 e2 : Env) :
  get_env_state (set_env_state (get_env_state e1) e2) = get_env_state e1
  ∧ qpos (data (set_env_state (get_env_state e1) e2)) = qpos (data e1)
  ∧ qvel (data (set_env_state (get_env_state e1) e2)) = qvel (data e1)
  ∧ mocap_pos (data (set_env_state (get_env_state e1) e2))
    = mocap_pos (data e1)
  ∧ mocap_quat (data (set_env_state (get_env_state e1) e2))
    = mocap_quat (data e1)
  ∧ _goal_xyxytheta (set_env_state (get_env_state e1) e2)
    = _goal_xyxytheta e2
  ∧ eq_data (data (set_env_state (get_env_state e1) e2))
    = eq_data (data e2).
Proof.
  unfold set_env_state, get_env_state, sim_forward. simpl.
  destruct (mj_forward _) as [xp xq]. simpl.
  repeat split; reflexivity.
Qed.

End HandAndCheckpoint.

Lemma rigid_engine_keeps_sizes xpos :
  engine_keeps_sizes (H := rigid_engine xpos).
Proof. intros u d. split; reflexivity. Qed.

Lemma set_hand_xy_target_and_errors_witness :
  (∃ e',
     set_hand_xy (H := rigid_engine (hand_goal_at 0))
                 (default_config SawyerPushAndReachTXYEasyEnv)
                 [0.3; 0.9; 7] moving_env = Some e'
     ∧ mocap_pos (data e') = (0.3, 0.9, 0.02))
  ∧ set_hand_xy (H := rigid_engine (hand_goal_at 0))
                (default_config SawyerPushAndReachTXYEasyEnv)
                [0.3] moving_env = None.
Proof.
  split.
  - destruct (set_hand_xy_target_and_errors
                (H := rigid_engine (hand_goal_at 0))
                (default_config SawyerPushAndReachTXYEasyEnv)
                [0.3; 0.9; 7] moving_env) as [Hret _].
    destruct (Hret 0.3 0.9 [7] eq_refl) as (e' & Hs & Hm & _).
    exists e'. split; [exact Hs | exact Hm].
  - destruct (set_hand_xy_target_and_errors
                (H := rigid_engine (hand_goal_at 0))
                (default_config SawyerPushAndReachTXYEasyEnv)
                [0.3] moving_env) as [_ Hshort].
    apply Hshort. simpl. lia.
Defined.

Lemma set_to_goal_places_hand_and_puck_witness :
  ∃ e',
    set_to_goal (H := rigid_engine (hand_goal_at 0))
                (default_config SawyerPushAndReachTXYEasyEnv)
                (<["state_desired_goal" := [0.01; 0.6; 0.02; 0.61; 0.1]]> ∅)
                moving_env = Some e'
    ∧ mocap_pos (data e') = (0.01, 0.6, 0.02)
    ∧ np.slice (qpos (data e')) 7 10 = [0.02; 0.61; 0.02]
    ∧ _goal_xyxytheta e' = [0; 0; 0; 0; 0].
Proof.
  destruct (set_to_goal_places_hand_and_puck
              (H := rigid_engine (hand_goal_at 0))
              (default_config SawyerPushAndReachTXYEasyEnv)
              (<["state_desired_goal" := [0.01; 0.6; 0.02; 0.61; 0.1]]> ∅)
              moving_env) as (_ & _ & Hret).
  destruct (Hret [0.01; 0.6; 0.02; 0.61; 0.1] eq_refl)
    as (e' & g0 & g1 & x & y & theta & Hs & Hh & Ht & Hm & Hxy & _ & _ & Hg);
    [simpl; lia | apply rigid_engine_keeps_sizes | simpl; lia | simpl; lia |].
  injection Hh as <- <-. injection Ht as <- <- <-.
  exists e'. split; [exact Hs|]. split; [exact Hm|].
  split; [exact Hxy | exact Hg].
Defined.

(** ** Reach of one step *)

Lemma clip_move x d lo hi :
  lo <= x <= hi → Rabs (np.clip (x + d) lo hi - x) <= Rabs d.
Proof.
  intros [Hlo Hhi]. unfold np.clip, Rmin, Rmax.
  destruct (Rle_dec (x + d) lo); destruct (Rle_dec _ hi);
    apply Rabs_le; split;
    (destruct (Rcase_abs d); [rewrite (Rabs_left d) by lra
                             | rewrite (Rabs_right d) by lra]); lra.
Qed.

Lemma clip_unit_bound a s : 0 <= s → Rabs (np.clip a (-1) 1 * s) <= s.
Proof.
  intros Hs. destruct (clip_in_range a (-1) 1 ltac:(lra)) as [Hl Hh].
  apply Rabs_le. split; nra.
Qed.

Lemma clip_below x lo hi : x <= lo → lo <= hi → np.clip x lo hi = lo.
Proof.
  intros Hx Hlh. unfold np.clip.
  rewrite (Rmax_right x lo Hx). apply Rmin_left, Hlh.
Qed.

Section Reach.
Context `{Engine}.

(** X13. With a non-negative action scale and ordered box corners, a step
    started with the mocap target inside the box moves each horizontal
    coordinate of the target by at most the scale, however large the
    requested action, and its height by at most the scale times the
    vertical correction. *)
Theorem step_displacement_bound (cfg : Config) (a : R * R) (e e' : Env)
    (res : gmap string (list R) * R * bool * gmap string R) :
  0 <= pos_action_scale cfg →
  in_box (mocap_low cfg) (mocap_high cfg) (mocap_pos (data e)) →
  step cfg a e = Some (e', res) →
  Rabs ((mocap_pos (data e')).1.1 - (mocap_pos (data e)).1.1)
    <= pos_action_scale cfg
  ∧ Rabs ((mocap_pos (data e')).1.2 - (mocap_pos (data e)).1.2)
    <= pos_action_scale cfg
  ∧ Rabs ((mocap_pos (data e')).2 - (mocap_pos (data e)).2)
    <= pos_action_scale cfg * Rabs (mocap_delta_z e).
Proof.
  intros Hs (Hx & Hy & Hz) Hstep.
  apply step_mocap in Hstep as [-> _].
  destruct (mocap_set_action_pos cfg
    (vec3_scale
       (new_mocap_action (np.clip a.1 (-1) 1, np.clip a.2 (-1) 1) e)
       (pos_action_scale cfg)) e) as (-> & _).
  simpl. split; [|split].
  - etransitivity; [by apply clip_move|]. by apply clip_unit_bound.
  - etransitivity; [by apply clip_move|]. by apply clip_unit_bound.
  - etransitivity; [by apply clip_move|].
    rewrite Rabs_mult, (Rabs_right (pos_action_scale cfg)) by lra. lra.
Qed.

(** What a returning [reset] has done: the goal it stores is the sampled
    one, the mocap target is at [INIT_HAND_POS] and the derived quantities
    are fresh. *)
Lemma reset_Some cfg e g e1 g' obs :
  reset cfg e g = Some (e1, g', obs) →
  mocap_pos (data e1) = INIT_HAND_POS
  ∧ (∀ b, quat_nonzero (body_xquat (data e1) b))
  ∧ ∃ goal g1, sample_goal_xyxytheta cfg g = Some (goal, g1)
               ∧ _goal_xyxytheta e1 = goal.
Proof.
  intros Hreset. unfold reset, sample_goal_for_rollout in Hreset.
  destruct (reset_prefix_data e) as (_ & _ & Hm2).
  match type of Hm2 with
  | mocap_pos (data ?x) = _ =>
      generalize dependent x; intros e0 Hreset Hm2
  end.
  destruct (sample_goal_xyxytheta cfg g) as [[goal g1]|];
    [|discriminate Hreset].
  simpl in Hreset.
  destruct (set_goal_xyxytheta goal _) as [e3|] eqn:Hgoal;
    [|discriminate Hreset].
  simpl in Hreset.
  destruct (sample_puck_xytheta cfg g1) as [[xyt g2]|];
    [|discriminate Hreset].
  simpl in Hreset.
  destruct (set_puck_xytheta xyt e3) as [e4|] eqn:Hpuck;
    [|discriminate Hreset].
  simpl in Hreset.
  destruct (_get_obs _); [|discriminate Hreset].
  simpl in Hreset. injection Hreset as <- _ _.
  destruct (reset_mocap_welds_data e4) as (_ & _ & -> & -> & Hq).
  apply set_puck_xytheta_mocap in Hpuck as [-> ->].
  apply set_goal_xyxytheta_stores in Hgoal as [-> ->].
  split; [exact Hm2|]. split; [exact Hq|]. eauto.
Qed.

(** X14. [reset] leaves the mocap target at [INIT_HAND_POS], whose second
    coordinate is 0.4.  When the low face of the box is out of one step's
    reach from there, as with the default box (0.5) and scale (0.02), the
    first step after a reset puts that coordinate exactly on the low face,
    whatever the action. *)
Theorem first_step_after_reset_snaps (cfg : Config) (e e1 e2 : Env)
    (g g' : np.RandomState) (obs : gmap string (list R)) (a : R * R)
    (res : gmap string (list R) * R * bool * gmap string R) :
  0 <= pos_action_scale cfg →
  0.4 + pos_action_scale cfg <= (mocap_low cfg).1.2 →
  (mocap_low cfg).1.2 <= (mocap_high cfg).1.2 →
  reset cfg e g = Some (e1, g', obs) →
  step cfg a e1 = Some (e2, res) →
  (mocap_pos (data e1)).1.2 = 0.4
  ∧ (mocap_pos (data e2)).1.2 = (mocap_low cfg).1.2.
Proof.
  intros Hs Hreach Hbox Hreset Hstep.
  destruct (reset_Some _ _ _ _ _ _ Hreset) as (Hm1 & _).
  apply step_mocap in Hstep as [-> _].
  destruct (mocap_set_action_pos cfg
    (vec3_scale
       (new_mocap_action (np.clip a.1 (-1) 1, np.clip a.2 (-1) 1) e1)
       (pos_action_scale cfg)) e1) as (-> & _).
  rewrite Hm1. unfold INIT_HAND_POS. simpl. split; [reflexivity|].
  apply clip_below; [|exact Hbox].
  destruct (clip_in_range a.2 (-1) 1 ltac:(lra)) as [Hl Hh]. nra.
Qed.

(** X15. The base class cannot be reset: it has no
    [sample_puck_xytheta], so [reset] raises on it whatever the state. *)
Theorem reset_raises_on_base_class (cfg : Config) (e : Env)
    (g : np.RandomState) :
  cls cfg = SawyerPushAndReachTXYEnv → reset cfg e g = None.
Proof.
  intros Hcls. unfold reset.
  destruct (sample_goal_for_rollout cfg g) as [[goal g1]|]; [|reflexivity].
  simpl. destruct (set_goal_xyxytheta goal _) as [e3|]; [|reflexivity].
  simpl. unfold sample_puck_xytheta. by rewrite Hcls.
Qed.

End Reach.

Lemma step_displacement_bound_witness :
  ∃ e' res,
    step (H := rigid_engine (hand_goal_at 0))
         (default_config SawyerPushAndReachTXYEasyEnv) (30, -30)
         (scene_env (hand_goal_at 0)) = Some (e', res)
    ∧ Rabs ((mocap_pos (data e')).1.1 - 0) <= 2 / 100
    ∧ Rabs ((mocap_pos (data e')).1.2 - 0.6) <= 2 / 100.
Proof.
  destruct (step_returns (H := rigid_engine (hand_goal_at 0))
              (default_config SawyerPushAndReachTXYEasyEnv) (30, -30)
              (scene_env (hand_goal_at 0)) eq_refl eq_refl
              (scene_quat_nonzero _)) as [[e' res] Hs].
  destruct (step_displacement_bound (H := rigid_engine (hand_goal_at 0))
              (default_config SawyerPushAndReachTXYEasyEnv) (30, -30)
              (scene_env (hand_goal_at 0)) e' res) as (Hx & Hy & _);
    [simpl; lra | unfold in_box; simpl; lra | exact Hs |].
  exists e', res. split; [exact Hs|]. split; [exact Hx | exact Hy].
Defined.

Lemma first_step_after_reset_snaps_witness :
  ∃ e1 g' obs e2 res,
    reset (H := rigid_engine (hand_goal_at 0))
          (default_config SawyerPushAndReachTXYEasyEnv)
          (scene_env (hand_goal_at 0)) (constant_draws 0.5)
    = Some (e1, g', obs)
    ∧ step (H := rigid_engine (hand_goal_at 0))
           (default_config SawyerPushAndReachTXYEasyEnv) (0, -1) e1
      = Some (e2, res)
    ∧ (mocap_pos (data e1)).1.2 = 0.4
    ∧ (mocap_pos (data e2)).1.2 = 0.5.
Proof.
  destruct (reset_returns (H := rigid_engine (hand_goal_at 0))
              (default_config SawyerPushAndReachTXYEasyEnv)
              (scene_env (hand_goal_at 0)) (constant_draws 0.5)
              _ _ eq_refl eq_refl)
    as (e1 & obs & Hr & Hg & _); [simpl; lia | simpl; lia |].
  destruct (reset_Some (H := rigid_engine (hand_goal_at 0)) _ _ _ _ _ _ Hr)
    as (_ & Hq & _).
  destruct (step_returns (H := rigid_engine (hand_goal_at 0))
              (default_config SawyerPushAndReachTXYEasyEnv) (0, -1) e1
              eq_refl ltac:(by rewrite Hg) Hq) as [[e2 res] Hs].
  destruct (λ H1 H2 H3,
              first_step_after_reset_snaps
                (H := rigid_engine (hand_goal_at 0))
                (default_config SawyerPushAndReachTXYEasyEnv)
                _ _ _ _ _ _ _ _ H1 H2 H3 Hr Hs) as [H1 H2];
    [simpl; lra | simpl; lra | simpl; lra |].
  eexists e1, _, obs, e2, res.
  split; [exact Hr|]. split; [exact Hs|]. split; [exact H1 | exact H2].
Defined.

Lemma reset_raises_on_base_class_witness :
  reset (H := rigid_engine (hand_goal_at 0))
        (default_config SawyerPushAndReachTXYEnv)
        (scene_env (hand_goal_at 0)) (constant_draws 0.5) = None.
Proof.
  by apply (reset_raises_on_base_class (H := rigid_engine (hand_goal_at 0))).
Defined.

(** ** The joint state after a reset *)

Section ResetState.
Context `{Engine}.

#[local] Arguments set_puck_xytheta : simpl never.
#[local] Arguments set_goal_xyxytheta : simpl never.
#[local] Arguments set_state : simpl never.
#[local] Arguments reset_mocap_welds : simpl never.
#[local] Arguments _get_obs : simpl never.

(** The joint vectors [set_goal_xyxytheta] installs, written out. *)
Lemma set_goal_xyxytheta_explicit g0 g1 g2 g3 rest e :
  (28 <= length (qpos (data e)))%nat →
  (24 <= length (qvel (data e)))%nat →
  ∃ qw qx qy qz,
    theta_to_quat (default g3 (last rest)) = (qw, qx, qy, qz)
    ∧ set_goal_xyxytheta (g0 :: g1 :: g2 :: g3 :: rest) e
      = Some (set_state
                (take 14 (qpos (data e)) ++ [g0; g1; 0.02]
                 ++ np.slice (qpos (data e)) 17 21 ++ [g2; g3; 0.02]
                 ++ [qw; qx; qy; qz] ++ drop 28 (qpos (data e)))
                (take 14 (qvel (data e)) ++ [0; 0; 0]
                 ++ np.slice (qvel (data e)) 17 21 ++ [0; 0; 0]
                 ++ drop 24 (qvel (data e)))
                (mkEnv (data e) (g0 :: g1 :: g2 :: g3 :: rest))).
Proof.
  intros Hqp Hqv. unfold set_goal_xyxytheta.
  assert (Hlast : last (g0 :: g1 :: g2 :: g3 :: rest)
                  = Some (default g3 (last rest))).
  { rewrite !last_cons. by destruct (last rest). }
  rewrite Hlast. cbn [mbind option_bind].
  destruct (theta_to_quat (default g3 (last rest))) as [[[qw qx] qy] qz].
  exists qw, qx, qy, qz. split; [reflexivity|].
  cbn [data].
  remember (qpos (data e)) as qp eqn:Eqp.
  remember (qvel (data e)) as qv eqn:Eqv.
  expose_prefix qp 28. expose_prefix qv 24.
  reflexivity.
Qed.

(** The joint vectors [set_puck_xytheta] installs, written out. *)
Lemma set_puck_xytheta_explicit x y theta e :
  (14 <= length (qpos (data e)))%nat →
  (14 <= length (qvel (data e)))%nat →
  ∃ qw qx qy qz,
    theta_to_quat theta = (qw, qx, qy, qz)
    ∧ set_puck_xytheta [x; y; theta] e
      = Some (set_state
                (take 7 (qpos (data e)) ++ [x; y; 0.02; qw; qx; qy; qz]
                 ++ drop 14 (qpos (data e)))
                (take 7 (qvel (data e)) ++ replicate 7 0
                 ++ drop 14 (qvel (data e)))
                e).
Proof.
  intros Hqp Hqv. unfold set_puck_xytheta.
  destruct (theta_to_quat theta) as [[[qw qx] qy] qz].
  exists qw, qx, qy, qz. split; [reflexivity|].
  remember (qpos (data e)) as qp eqn:Eqp.
  remember (qvel (data e)) as qv eqn:Eqv.
  expose_prefix qp 14. expose_prefix qv 14.
  reflexivity.
Qed.

(** X16. The joint state [reset] leaves on the easy class, for a sampled
    goal of at least four entries.  Positions: the canonical arm angles,
    the puck at (0, 0.6, 0.02) with the sampled angle, the hand-goal
    marker at the first two goal entries and the puck-goal marker at the
    next two, both at height 0.02, the puck-goal quaternion from the last
    goal entry.  Velocities: zero at the entries 7..16 and 21..23, and the
    values from before the reset everywhere else, the arm included. *)
Theorem reset_joint_state (cfg : Config) (e : Env) (g g1 : np.RandomState)
    (g0 g1' g2 g3 : R) (rest : list R) :
  cls cfg = SawyerPushAndReachTXYEasyEnv →
  sample_goal_xyxytheta cfg g = Some (g0 :: g1' :: g2 :: g3 :: rest, g1) →
  (24 <= length (qvel (data e)))%nat →
  ∃ e' obs,
    reset cfg e g = Some (e', (λ i, g1 (S i)), obs)
    ∧ np.slice (qpos (data e')) 0 7 = np.slice init_angles 0 7
    ∧ np.slice (qpos (data e')) 7 10 = [0; 0.6; 0.02]
    ∧ (let '(qw, qx, qy, qz) := theta_to_quat ((g1 0%nat - 0.5) * PI) in
       np.slice (qpos (data e')) 10 14 = [qw; qx; qy; qz])
    ∧ np.slice (qpos (data e')) 14 17 = [g0; g1'; 0.02]
    ∧ np.slice (qpos (data e')) 17 21 = np.slice init_angles 17 21
    ∧ np.slice (qpos (data e')) 21 24 = [g2; g3; 0.02]
    ∧ (let '(qw, qx, qy, qz) := theta_to_quat (default g3 (last rest)) in
       np.slice (qpos (data e')) 24 28 = [qw; qx; qy; qz])
    ∧ length (qpos (data e')) = 28%nat
    ∧ qvel (data e')
      = np.slice (qvel (data e)) 0 7 ++ replicate 10 0
        ++ np.slice (qvel (data e)) 17 21 ++ [0; 0; 0]
        ++ drop 24 (qvel (data e)).
Proof.
  intros Hcls Hsample Hqv. unfold reset, sample_goal_for_rollout.
  destruct (reset_prefix_data e) as (Hp2 & Hv2 & _).
  match type of Hp2 with
  | qpos (data ?x) = _ => generalize dependent x; intros e2 Hp2 Hv2
  end.
  rewrite Hsample. cbn [mbind option_bind _goal_xyxytheta].
  destruct (set_goal_xyxytheta_explicit g0 g1' g2 g3 rest
              (mkEnv (data e2) (g0 :: g1' :: g2 :: g3 :: rest)))
    as (gw & gx & gy & gz & -> & ->);
    [simpl; rewrite Hp2; simpl; lia | simpl; rewrite Hv2; exact Hqv |].
  cbn [mbind option_bind data]. rewrite Hp2, Hv2.
  unfold sample_puck_xytheta. rewrite Hcls.
  cbn [np.random mbind option_bind].
  match goal with
  | |- context [set_puck_xytheta _ (set_state ?a ?b ?x)] =>
      destruct (set_state_data a b x) as (Hp4 & Hv4 & _);
      remember (set_state a b x) as e4 eqn:He4; clear He4
  end.
  remember (qvel (data e)) as qv eqn:Eqv.
  expose_prefix qv 24.
  destruct (set_puck_xytheta_explicit 0 0.6 ((g1 0%nat - 0.5) * PI) e4)
    as (pw & px & py & pz & -> & ->);
    [rewrite Hp4; simpl; lia | rewrite Hv4; simpl; lia |].
  cbn [mbind option_bind]. rewrite Hp4, Hv4.
  match goal with
  | |- context [reset_mocap_welds (set_state ?a ?b ?x)] =>
      destruct (set_state_data a b x) as (Hp5 & Hv5 & _);
      destruct (reset_mocap_welds_data (set_state a b x))
        as (Hp6 & Hv6 & _ & _ & Hq6);
      remember (reset_mocap_welds (set_state a b x)) as e6 eqn:He6;
      clear He6
  end.
  destruct (get_obs_is_Some _ (Hq6 puck_id)) as (obs & x & -> & _).
  cbn [mbind option_bind]. exists e6, obs. split; [reflexivity|].
  rewrite Hp6, Hv6, Hp5, Hv5. repeat split; reflexivity.
Qed.

End ResetState.

Lemma reset_joint_state_witness :
  ∃ e' g' obs,
    reset (H := rigid_engine (hand_goal_at 0)) fixed_goal_config
          moving_env (constant_draws 0.5)
    = Some (e', g', obs)
    ∧ np.slice (qpos (data e')) 7 10 = [0; 0.6; 0.02]
    ∧ np.slice (qpos (data e')) 14 17 = [-0.05; 0.6; 0.02]
    ∧ np.slice (qvel (data e')) 0 7 = replicate 7 1
    ∧ np.slice (qvel (data e')) 7 17 = replicate 10 0.
Proof.
  destruct (reset_joint_state (H := rigid_engine (hand_goal_at 0))
              fixed_goal_config moving_env (constant_draws 0.5)
              (constant_draws 0.5) (-0.05) 0.6 0.05 0.6 [0]
              eq_refl eq_refl)
    as (e' & obs & Hr & _ & Hpuck & _ & Hhand & _ & _ & _ & _ & Hv);
    [simpl; lia |].
  eexists e', _, obs. split; [exact Hr|]. split; [exact Hpuck|].
  split; [exact Hhand|]. rewrite Hv. split; reflexivity.
Defined.

(** ** Keeping the puck in the goal space *)

Lemma clip_array_three_raises x y theta lo hi :
  (length lo ≠ 3%nat ∧ length lo ≠ 1%nat)
  ∨ (length hi ≠ 3%nat ∧ length hi ≠ 1%nat) →
  np.clip_array [x; y; theta] lo hi = None.
Proof.
  intros Hb. unfold np.clip_array.
  destruct (np.broadcast Rmax [x; y; theta] lo) as [m|] eqn:Hm;
    [|reflexivity].
  cbn [mbind option_bind].
  assert (Hlen : length m = 3%nat).
  { revert Hm. unfold np.broadcast. case_decide as Hl.
    - intros [= Hz]. subst m.
      destruct lo as [|? [|? [|? [|? ?]]]]; simpl in Hl; try discriminate Hl;
        reflexivity.
    - destruct lo as [|l0 [|l1 lo]]; simpl; intros [= Hz]; subst m;
        reflexivity. }
  destruct Hb as [[H3 H1]|[H3 H1]].
  - exfalso. destruct (broadcast_Some_length _ _ _ _ Hm) as [Hl|[Hl|Hl]];
      simpl in Hl; [by apply H3 | lia | by apply H1].
  - destruct (np.broadcast Rmin m hi) as [r|] eqn:Hr; [|reflexivity].
    exfalso. destruct (broadcast_Some_length _ _ _ _ Hr) as [Hl|[Hl|Hl]];
      [apply H3; lia | lia | by apply H1].
Qed.

Lemma clip_array_inside p lo hi :
  Forall2 Rle lo p → Forall2 Rle p hi → np.clip_array p lo hi = Some p.
Proof.
  intros Hlo Hhi. unfold np.clip_array.
  rewrite broadcast_same_length by (symmetry; eapply Forall2_length, Hlo).
  cbn [mbind option_bind].
  assert (Hmax : zip_with Rmax p lo = p).
  { clear Hhi. induction Hlo as [|l x lo p Hl _ IH]; [reflexivity|].
    simpl. rewrite IH. f_equal. by apply Rmax_left. }
  rewrite Hmax.
  rewrite broadcast_same_length by (eapply Forall2_length, Hhi).
  f_equal. clear Hlo Hmax.
  induction Hhi as [|x h p hi Hh _ IH]; [reflexivity|].
  simpl. rewrite IH. f_equal. by apply Rmin_left.
Qed.

Lemma all_equal_refl p : np.all_equal p p = true.
Proof.
  unfold np.all_equal. induction p as [|x p IH]; [reflexivity|].
  simpl. rewrite IH. by rewrite bool_decide_eq_true_2.
Qed.

Section Forcing.
Context `{Engine}.

Lemma get_puck_xytheta_mocap_set_action cfg action e :
  get_puck_xytheta (mocap_set_action cfg action e) = get_puck_xytheta e.
Proof.
  unfold mocap_set_action.
  destruct (mocap_pos (data e)) as [[px py] pz].
  destruct action as [[dx dy] dz].
  destruct (mocap_low cfg) as [[lx ly] lz].
  destruct (mocap_high cfg) as [[hx hy] hz].
  reflexivity.
Qed.

(** X17. With [force_puck_in_goal_space] set, [step] raises in every state
    and for every action when either puck bound has a number of entries
    other than three or one: the three-entry puck pose cannot be clipped
    against it.  The easy class's default bounds have two entries. *)
Theorem step_forcing_raises_on_bounds (cfg : Config) (a : R * R) (e : Env) :
  force_puck_in_goal_space cfg = true →
  (length (puck_goal_low cfg) ≠ 3%nat ∧ length (puck_goal_low cfg) ≠ 1%nat)
  ∨ (length (puck_goal_high cfg) ≠ 3%nat
     ∧ length (puck_goal_high cfg) ≠ 1%nat) →
  step cfg a e = None.
Proof.
  intros Hf Hb. unfold step. rewrite Hf. cbv zeta.
  rewrite get_puck_xytheta_mocap_set_action.
  destruct (get_puck_xytheta e) as [p|] eqn:Hp; [|reflexivity].
  destruct (get_puck_xytheta_shape _ _ Hp) as (theta & ->).
  cbn [mbind option_bind].
  rewrite (clip_array_three_raises _ _ _ _ _ Hb). reflexivity.
Qed.

(** X18. When the puck pose observed before the step lies within the
    puck bounds, entry by entry, [force_puck_in_goal_space] makes no
    difference: the step with the flag set and the step with it cleared
    return the same environment, observation, reward and diagnostics. *)
Theorem step_forcing_inside_is_noop (cfg : Config) (a : R * R) (e : Env)
    (p : list R) :
  get_puck_xytheta e = Some p →
  Forall2 Rle (puck_goal_low cfg) p →
  Forall2 Rle p (puck_goal_high cfg) →
  step (with_force_puck_in_goal_space true cfg) a e
  = step (with_force_puck_in_goal_space false cfg) a e.
Proof.
  intros Hp Hlo Hhi. unfold step, with_force_puck_in_goal_space.
  cbn [force_puck_in_goal_space puck_goal_low puck_goal_high
       pos_action_scale frame_skip].
  cbv zeta. rewrite get_puck_xytheta_mocap_set_action, Hp.
  cbn [mbind option_bind].
  rewrite (clip_array_inside _ _ _ Hlo Hhi). cbn [mbind option_bind].
  rewrite all_equal_refl. reflexivity.
Qed.

End Forcing.

Lemma step_forcing_raises_on_bounds_witness :
  step (H := rigid_engine (hand_goal_at 0))
       (with_force_puck_in_goal_space true easy_config) (0, 0)
       (scene_env (hand_goal_at 0))
  = None.
Proof.
  apply (step_forcing_raises_on_bounds (H := rigid_engine (hand_goal_at 0))
           (with_force_puck_in_goal_space true easy_config) (0, 0)
           (scene_env (hand_goal_at 0)) eq_refl).
  left. simpl. split; lia.
Defined.

Lemma step_forcing_inside_is_noop_witness :
  step (H := rigid_engine (puck_at 0 0.6))
       (with_force_puck_in_goal_space true (default_config
                                              SawyerPushAndReachTXYEnv))
       (0, 0) (scene_env (puck_at 0 0.6))
  = step (H := rigid_engine (puck_at 0 0.6))
         (with_force_puck_in_goal_space false (default_config
                                                 SawyerPushAndReachTXYEnv))
         (0, 0) (scene_env (puck_at 0 0.6)).
Proof.
  apply (step_forcing_inside_is_noop (H := rigid_engine (puck_at 0 0.6))
           (default_config SawyerPushAndReachTXYEnv) (0, 0)
           (scene_env (puck_at 0 0.6)) [0; 0.6; 0]).
  - unfold get_puck_xytheta. simpl. rewrite quat_to_theta_identity.
    reflexivity.
  - simpl. repeat constructor; lra.
  - simpl. repeat constructor; lra.
Defined.

(** ** The batched reward *)

Lemma broadcast_via_pairs {A B C : Type} (f : A → B → C) a b :
  np.broadcast f a b
  = (λ ps, map (λ p : A * B, f p.1 p.2) ps) <$> np.broadcast pair a b.
Proof.
  unfold np.broadcast. case_decide as Hl.
  - simpl. f_equal. clear Hl. revert b.
    induction a as [|x a IH]; intros [|y b]; simpl; [done..|].
    by rewrite IH.
  - destruct a as [|x [|x' a]], b as [|y [|y' b]]; simpl; try done;
      f_equal; by rewrite map_map.
Qed.

Lemma compute_reward_on_pair {A : Type} (action : A) (achieved desired : list R) :
  compute_reward action
    (<["state_achieved_goal" := achieved]>
       (<["state_desired_goal" := desired]> ∅))
  = (λ d, - np.norm d) <$> np.subtract achieved desired.
Proof.
  unfold compute_reward.
  rewrite lookup_insert_eq. cbn [mbind option_bind].
  rewrite lookup_insert_ne by done. rewrite lookup_insert_eq.
  cbn [mbind option_bind].
  by destruct (np.subtract achieved desired).
Qed.

(** X19. The batched reward is the single reward row by row: the rows of
    the achieved and the desired goals are paired with numpy's
    broadcasting (equal numbers of rows, or one row against all), and
    [compute_rewards] returns exactly when [compute_reward] returns on the
    observation made of each pair, with those rewards in order; it raises
    when the rows cannot be paired or a key is missing.  Every reward
    returned is non-positive. *)
Theorem compute_rewards_rowwise {A : Type} (action : A)
    (obs : gmap string (list (list R))) :
  compute_rewards action obs
  = (achieved ← obs !! "state_achieved_goal";
     desired ← obs !! "state_desired_goal";
     pairs ← np.broadcast pair achieved desired;
     mapM (λ ad : list R * list R,
             compute_reward action
               (<["state_achieved_goal" := ad.1]>
                  (<["state_desired_goal" := ad.2]> ∅)))
          pairs)
  ∧ (∀ rs, compute_rewards action obs = Some rs → Forall (λ r, r <= 0) rs).
Proof.
  split.
  - unfold compute_rewards, subtract_rows.
    destruct (obs !! "state_achieved_goal") as [achieved|]; [|reflexivity].
    destruct (obs !! "state_desired_goal") as [desired|]; [|reflexivity].
    cbn [mbind option_bind].
    rewrite (broadcast_via_pairs np.subtract).
    destruct (np.broadcast pair achieved desired) as [pairs|];
      [|reflexivity].
    cbn [fmap option_fmap option_map mbind option_bind].
    induction pairs as [|[a d] pairs IH]; [reflexivity|].
    cbn [map mapM fst snd]. rewrite compute_reward_on_pair.
    destruct (np.subtract a d) as [row|]; [|reflexivity].
    cbn [fmap option_fmap option_map mbind option_bind mret option_ret].
    rewrite <- IH.
    destruct (mapM _ (map _ pairs)) as [rows|]; reflexivity.
  - unfold compute_rewards. intros rs Hrs.
    repeat case_bind. injection Hrs as <-.
    apply Forall_map, Forall_true. intros row. simpl.
    pose proof (norm_nonneg row). lra.
Qed.

(** ** Sampling *)

Lemma uniform_entries_in_bounds (g : np.RandomState) low high k :
  (∀ i, 0 <= g i < 1) →
  Forall2 Rle low high →
  let r := zip_with (λ (lh : R * R) u, lh.1 + (lh.2 - lh.1) * u)
             (zip_with pair low high) (map g (seq k (length low))) in
  length r = length low ∧ Forall2 Rle low r ∧ Forall2 Rle r high.
Proof.
  intros Hg Hlh. revert k.
  induction Hlh as [|l h low high Hle _ IH]; intros k; simpl.
  - repeat split; constructor.
  - destruct (IH (S k)) as (Hlen & Hlo & Hhi).
    pose proof (Hg k) as [Hk0 Hk1].
    split; [by rewrite Hlen|].
    split; constructor; try assumption; nra.
Qed.

Lemma uniform_in_bounds low high (g : np.RandomState) :
  (∀ i, 0 <= g i < 1) →
  Forall2 Rle low high →
  ∃ r, np.uniform low high g = Some (r, λ i, g (length low + i)%nat)
       ∧ length r = length low
       ∧ Forall2 Rle low r ∧ Forall2 Rle r high.
Proof.
  intros Hg Hlh. unfold np.uniform.
  rewrite broadcast_same_length by (eapply Forall2_length, Hlh).
  cbn [mbind option_bind].
  assert (Hn : length (zip_with pair low high) = length low).
  { rewrite length_zip_with. apply Forall2_length in Hlh. lia. }
  rewrite Hn. eexists. split; [reflexivity|].
  apply (uniform_entries_in_bounds g low high 0 Hg Hlh).
Qed.

(** X20. With goal randomization, bounds of matching lengths with every
    low entry at most its high entry, and draws from the unit interval,
    [sample_goal_xyxytheta] returns a goal with one entry per bound, the
    hand's first, each between its low and its high bound, and consumes
    one draw per entry.  Without randomization it consumes no draw. *)
Theorem sample_goal_xyxytheta_in_bounds (cfg : Config)
    (g : np.RandomState) :
  (∀ i, 0 <= g i < 1) →
  Forall2 Rle (hand_goal_low cfg) (hand_goal_high cfg) →
  Forall2 Rle (puck_goal_low cfg) (puck_goal_high cfg) →
  let n := (length (hand_goal_low cfg) + length (puck_goal_low cfg))%nat in
  ∃ goal g',
    sample_goal_xyxytheta cfg g = Some (goal, g')
    ∧ (randomize_goals cfg = true →
       length goal = n
       ∧ Forall2 Rle (hand_goal_low cfg ++ puck_goal_low cfg) goal
       ∧ Forall2 Rle goal (hand_goal_high cfg ++ puck_goal_high cfg)
       ∧ ∀ i, g' i = g (n + i)%nat)
    ∧ (randomize_goals cfg = false →
       goal = fixed_hand_goal cfg ++ fixed_puck_goal cfg ∧ g' = g).
Proof.
  intros Hg Hhand Hpuck n. unfold sample_goal_xyxytheta.
  destruct (randomize_goals cfg).
  - destruct (uniform_in_bounds _ _ g Hg Hhand)
      as (hand & -> & Hlh & Hhlo & Hhhi).
    cbn [mbind option_bind].
    assert (Hg1 : ∀ i, 0 <= g (length (hand_goal_low cfg) + i)%nat < 1)
      by (intros i; apply Hg).
    destruct (uniform_in_bounds _ _ _ Hg1 Hpuck)
      as (puck & -> & Hlp & Hplo & Hphi).
    cbn [mbind option_bind].
    eexists _, _. split; [reflexivity|]. split; [|discriminate].
    intros _. split; [rewrite length_app; subst n; lia|].
    split; [by apply Forall2_app|]. split; [by apply Forall2_app|].
    intros i. subst n. simpl. f_equal. lia.
  - eexists _, _. split; [reflexivity|]. split; [discriminate|].
    intros _. split; reflexivity.
Qed.

(** X21. On the easy class, with a draw from the unit interval,
    [sample_puck_xytheta] places the puck at (0, 0.6) with an angle of at
    least minus a quarter turn and less than a quarter turn, and consumes
    exactly one draw. *)
Theorem sample_puck_xytheta_quarter_turn (cfg : Config)
    (g : np.RandomState) :
  cls cfg = SawyerPushAndReachTXYEasyEnv →
  0 <= g 0%nat < 1 →
  ∃ theta,
    sample_puck_xytheta cfg g = Some ([0; 0.6; theta], λ i, g (S i))
    ∧ theta = (g 0%nat - 0.5) * PI
    ∧ - (PI / 2) <= theta < PI / 2.
Proof.
  intros Hcls [Hu0 Hu1]. unfold sample_puck_xytheta. rewrite Hcls.
  cbn [np.random]. eexists. split; [reflexivity|]. split; [reflexivity|].
  pose proof PI_RGT_0. split; nra.
Qed.

Lemma sample_goal_xyxytheta_in_bounds_witness :
  ∃ goal g',
    sample_goal_xyxytheta easy_config (constant_draws 0.5) = Some (goal, g')
    ∧ length goal = 4%nat
    ∧ Forall2 Rle [-0.05; 0.55; -0.2; 0.5] goal
    ∧ Forall2 Rle goal [0.05; 0.65; 0.2; 0.7].
Proof.
  destruct (sample_goal_xyxytheta_in_bounds easy_config (constant_draws 0.5))
    as (goal & g' & Hs & Hr & _).
  - intros i. unfold constant_draws. lra.
  - simpl. repeat constructor; lra.
  - simpl. repeat constructor; lra.
  - destruct (Hr eq_refl) as (Hlen & Hlo & Hhi & _).
    exists goal, g'. repeat split; assumption.
Defined.

Lemma sample_puck_xytheta_quarter_turn_witness :
  ∃ theta,
    sample_puck_xytheta easy_config (constant_draws 0.5)
    = Some ([0; 0.6; theta], constant_draws 0.5)
    ∧ - (PI / 2) <= theta < PI / 2.
Proof.
  destruct (sample_puck_xytheta_quarter_turn easy_config
              (constant_draws 0.5) eq_refl)
    as (theta & Hs & _ & Hrange).
  - unfold constant_draws. lra.
  - exists theta. split; [exact Hs | exact Hrange].
Defined.
